(** * forwardBot: live-status poller, feed poller, item classifier, dispatch loop

    A shallow embedding of the Go sources of package [forwardBot]: the two
    pollers [BiliLiveSource] and [BiliDynamicSource] with the feed item
    classifier [parseDynamic], and the orchestrator [Bot] of [bot.go]; then
    the properties the specification states about them.

    Conventions.
    - Go [int64]/[int] values are [Z]; the one subtraction the code performs
      on them is wrapped to 64 bits ([to_int64]).
    - [time.Time] values are Unix seconds ([Z]): the code only builds them
      with [time.Unix(s, 0)] and reads them back with [.Unix()], or passes
      the ticker's [now] along.
    - Go maps are [gmap]s; reading an absent key yields the zero value.
    - The two [sync.Pool]s are explicit stores threaded through the
      functions that use them.
    - What [req.Get] answers is an argument of the function that calls it.
    - Sending on [ch] appends to the list of messages a function returns.
    - Logging is not modelled, except for the line that [Bot.Run] prints. *)

From Equations Require Import Equations.
From stdpp Require Import gmap strings list.
From Stdlib Require Import ZArith Ascii DecimalString Permutation.

Set Warnings "-register-all".

Open Scope string_scope.
Open Scope Z_scope.

(** ** Numbers and text *)

(** Reduction of an integer to the range of a Go [int64]. *)
Definition to_int64 (z : Z) : Z := (z + 2 ^ 63) mod 2 ^ 64 - 2 ^ 63.

(** [%d] / [strconv.FormatInt(_, 10)]. *)
Definition itoa (z : Z) : string := NilZero.string_of_int (Z.to_int z).

(** The ASCII double quote, used by the [Sprintf] formats below. *)
Definition dquote : string := String (Ascii.ascii_of_nat 34) EmptyString.

(** A line feed. *)
Definition nl : string := String (Ascii.ascii_of_nat 10) EmptyString.

(** Go's generic [max]. *)
Definition max (a b : Z) : Z := if a >? b then a else b.

(** ** The structured-data view (package gjson)

    The JSON library is an external collaborator. A [Result] is either
    non-existent ([None], Go's [Result{}]) or a JSON value. Arrays and
    objects keep their raw text, which is what [String()] returns for them;
    a number records the text that [String()] and the [int64] that [Int()]
    yield for it. Turning text into a [Result] ([gjson.Parse],
    [gjson.ParseBytes], [gjson.Get] on a string) is left to a [Parser]. *)
Module gjson.

Inductive Value : Type :=
| VNull
| VFalse
| VTrue
| VNumber (raw : string) (num : Z)
| VString (str : string)
| VArray (raw : string) (elems : list Value)
| VObject (raw : string) (members : list (string * Value)).

Definition Result : Type := option Value.

(** [Result.Exists()]. *)
Definition Exists (r : Result) : bool :=
  match r with Some _ => true | None => false end.

(** gjson's own [parseInt]: an optional sign and decimal digits, anything
    else gives zero; the accumulation is in [int64]. *)
Definition digit_of (c : ascii) : option Z :=
  let n := Z.of_nat (Ascii.nat_of_ascii c) in
  if (48 <=? n) && (n <=? 57) then Some (n - 48) else None.

Fixpoint parseDigits (s : string) (n : Z) : option Z :=
  match s with
  | EmptyString => Some n
  | String.String c s' =>
      match digit_of c with
      | Some d => parseDigits s' (to_int64 (n * 10 + d))
      | None => None
      end
  end.

Definition parseInt (s : string) : Z :=
  match s with
  | EmptyString => 0
  | String.String c s' =>
      if Ascii.eqb c "-"%char then
        match s' with
        | EmptyString => 0
        | _ => match parseDigits s' 0 with
               | Some n => to_int64 (n * -1)
               | None => 0
               end
        end
      else match parseDigits s 0 with Some n => n | None => 0 end
  end.

(** [Result.Int()]. *)
Definition Int (r : Result) : Z :=
  match r with
  | Some VTrue => 1
  | Some (VString str) => parseInt str
  | Some (VNumber _ num) => to_int64 num
  | _ => 0
  end.

(** [Result.String()]. *)
Definition String (r : Result) : string :=
  match r with
  | None | Some VNull => ""
  | Some VFalse => "false"
  | Some VTrue => "true"
  | Some (VNumber raw _) => raw
  | Some (VString str) => str
  | Some (VArray raw _) => raw
  | Some (VObject raw _) => raw
  end.

(** [Result.Array()]: the elements of an array, nothing for a null or
    non-existent result, and the value itself otherwise. *)
Definition Array (r : Result) : list Result :=
  match r with
  | None | Some VNull => []
  | Some (VArray _ elems) => map Some elems
  | Some v => [Some v]
  end.

(** One path component: a member of an object (the first with that key),
    or the element of an array at a decimal index. *)
Fixpoint member (key : string) (ms : list (string * Value)) : Result :=
  match ms with
  | [] => None
  | (k, v) :: ms' => if String.eqb k key then Some v else member key ms'
  end.

Definition index_of (key : string) : option nat :=
  match key with
  | EmptyString => None
  | _ => option_map Nat.of_uint (NilEmpty.uint_of_string key)
  end.

Definition child (key : string) (v : Value) : Result :=
  match v with
  | VObject _ ms => member key ms
  | VArray _ elems =>
      match index_of key with
      | Some i => nth_error elems i
      | None => None
      end
  | _ => None
  end.

(** Splitting a dotted path into its components. *)
Fixpoint components (path : string) (cur : string) : list string :=
  match path with
  | EmptyString => [cur]
  | String.String c path' =>
      if Ascii.eqb c "."%char then cur :: components path' ""
      else components path' (cur +:+ String.String c "")
  end.

(** [Result.Get(path)] for the paths this program uses: dot-separated keys
    and array indices, without wildcards, queries or modifiers. *)
Definition Get (r : Result) (path : string) : Result :=
  fold_left (fun r key => match r with Some v => child key v | None => None end)
            (components path "") r.

(** [gjson.Parse] / [gjson.ParseBytes]: the external parser, from text to
    the view. [gjson.Get(json, path)] is [Get (Parse json) path]. *)
Class Parser := Parse : string -> Result.

End gjson.

(** ** Shared declarations *)

(** Go [error] values, by their message. *)
Definition error : Type := string.

Module errors.
Definition New (msg : string) : error := msg.
Definition Wrap (err : error) (msg : string) : error := msg +:+ ": " +:+ err.
End errors.

(** What [req.Get] hands back: an error, or a buffer that may be nil. *)
Inductive Response : Type :=
| Failed (err : error)
| Body (buf : option string).

(** [sync.Pool]: [Get] takes a stored object when there is one and calls
    [New] otherwise; [Put] stores one. *)
Module sync.
Definition Pool (A : Type) : Type := list A.
Definition Get {A : Type} (New : A) (p : Pool A) : A * Pool A :=
  match p with
  | [] => (New, [])
  | x :: p' => (x, p')
  end.
Definition Put {A : Type} (x : A) (p : Pool A) : Pool A := x :: p.
End sync.

Module push.
(** Modelled from the spec: the Message record [push.Msg], declared in
    package [push]; its fields are those the two pollers fill in
    (timestamp, source-kind tag, author, title, body, images, link). *)
Record Msg : Type := mkMsg {
  Times : Z;
  Flag : Z;
  Author : string;
  Title : string;
  Text : string;
  Img : list string;
  Src : string
}.
End push.

Definition BiliLiveMsg : Z := Z.shiftl 1 0.
Definition BiliDynMsg : Z := Z.shiftl 1 1.
Definition TikTokLiveMsg : Z := Z.shiftl 1 2.

Definition infoUrl := "https://api.bilibili.com/x/space/acc/info".
Definition liveUrlPrefix := "https://live.bilibili.com/".
Definition spaceUrl := "https://api.bilibili.com/x/polymer/web-dynamic/v1/feed/space".
Definition dynamicUrlPrefix := "https://t.bilibili.com/".
Definition videoUrlPrefix := "https://www.bilibili.com/video/".
Definition articleUrlPrefix := "https://www.bilibili.com/read/cv".
Definition musicUrlPrefix := "https://www.bilibili.com/audio/au".
(** [interval / time.Second]. *)
Definition interval : Z := 10.

Definition ErrEmptyRespData : error := errors.New "empty data".

Definition checkResp {parser : gjson.Parser} (buf : option string) : gjson.Result + error :=
  match buf with
  | None => inr ErrEmptyRespData
  | Some bytes =>
      if String.eqb bytes "" then inr ErrEmptyRespData
      else inl (gjson.Parse bytes)
  end.

(** The nil [data] of the error return is the non-existent result; no
    caller reads it. *)
Definition checkBiliData (r : gjson.Result) : gjson.Result * Z * string :=
  let code := gjson.Int (gjson.Get r "code") in
  if negb (code =? 0) then (None, code, gjson.String (gjson.Get r "msg"))
  else (gjson.Get r "data", 0, "").

(** ** The status poller *)

Module LiveInfo.
Record t : Type := mk {
  Code : Z;
  Msg : string;
  Mid : Z;
  MidStr : string;
  Uname : string;
  LiveStatus : bool;
  RoomId : Z;
  RoomIdStr : string;
  Title : string;
  Cover : string
}.

(** [new(LiveInfo)]. *)
Definition new : t := mk 0 "" 0 "" "" false 0 "" "" "".

Definition Reset (l : t) : t :=
  {| Code := 0; Msg := ""; Mid := 0; MidStr := ""; Uname := "";
     LiveStatus := false; RoomId := 0; RoomIdStr := ""; Title := "";
     Cover := "" |}.

Definition set_Code (v : Z) (l : t) : t :=
  mk v (Msg l) (Mid l) (MidStr l) (Uname l) (LiveStatus l) (RoomId l)
     (RoomIdStr l) (Title l) (Cover l).
Definition set_Msg (v : string) (l : t) : t :=
  mk (Code l) v (Mid l) (MidStr l) (Uname l) (LiveStatus l) (RoomId l)
     (RoomIdStr l) (Title l) (Cover l).
Definition set_Mid (v : Z) (l : t) : t :=
  mk (Code l) (Msg l) v (MidStr l) (Uname l) (LiveStatus l) (RoomId l)
     (RoomIdStr l) (Title l) (Cover l).
Definition set_Uname (v : string) (l : t) : t :=
  mk (Code l) (Msg l) (Mid l) (MidStr l) v (LiveStatus l) (RoomId l)
     (RoomIdStr l) (Title l) (Cover l).
Definition set_LiveStatus (v : bool) (l : t) : t :=
  mk (Code l) (Msg l) (Mid l) (MidStr l) (Uname l) v (RoomId l)
     (RoomIdStr l) (Title l) (Cover l).
Definition set_RoomId (v : Z) (l : t) : t :=
  mk (Code l) (Msg l) (Mid l) (MidStr l) (Uname l) (LiveStatus l) v
     (RoomIdStr l) (Title l) (Cover l).
Definition set_Title (v : string) (l : t) : t :=
  mk (Code l) (Msg l) (Mid l) (MidStr l) (Uname l) (LiveStatus l) (RoomId l)
     (RoomIdStr l) v (Cover l).
Definition set_Cover (v : string) (l : t) : t :=
  mk (Code l) (Msg l) (Mid l) (MidStr l) (Uname l) (LiveStatus l) (RoomId l)
     (RoomIdStr l) (Title l) v.
End LiveInfo.

(** [getInfo]: the response of [req.Get(infoUrl, mid)] is an argument, the
    pool [liveInfoPool] is threaded. *)
Definition getInfo {parser : gjson.Parser} (mid : Z) (resp : Response)
    (liveInfoPool : sync.Pool LiveInfo.t)
  : (LiveInfo.t + error) * sync.Pool LiveInfo.t :=
  match resp with
  | Failed err => (inr err, liveInfoPool)
  | Body body =>
      match checkResp body with
      | inr err => (inr (errors.Wrap err "read bili resp data"), liveInfoPool)
      | inl result =>
          let '(info, liveInfoPool) := sync.Get LiveInfo.new liveInfoPool in
          let '(data, code, msg) := checkBiliData result in
          if negb (code =? 0) then
            let info := LiveInfo.set_Code code info in
            let info := LiveInfo.set_Msg msg info in
            (inl info, liveInfoPool)
          else
            let info := LiveInfo.set_Mid mid info in
            let info := LiveInfo.set_Uname (gjson.String (gjson.Get data "name")) info in
            let liveRoom := gjson.Get data "live_room" in
            if negb (gjson.Exists liveRoom) then
              let info := LiveInfo.set_Code 400 info in
              let info := LiveInfo.set_Msg "响应体中无live_room字段" info in
              (inl info, liveInfoPool)
            else
              let info := LiveInfo.set_LiveStatus
                            (gjson.Int (gjson.Get liveRoom "liveStatus") =? 1) info in
              let info := LiveInfo.set_RoomId (gjson.Int (gjson.Get liveRoom "roomid")) info in
              let info := LiveInfo.set_Title (gjson.String (gjson.Get liveRoom "title")) info in
              let info := LiveInfo.set_Cover (gjson.String (gjson.Get liveRoom "cover")) info in
              (inl info, liveInfoPool)
      end
  end.

Module BiliLiveSource.
Record t : Type := mk {
  uid : list Z;
  living : gmap Z bool
}.

(** [b.living[k]]: an absent key reads as [false]. *)
Definition living_at (b : t) (k : Z) : bool := default false (living b !! k).

Definition set_living (k : Z) (v : bool) (b : t) : t :=
  mk (uid b) (<[k := v]> (living b)).
End BiliLiveSource.

Definition NewBiliLiveSource (uid : list Z) : BiliLiveSource.t :=
  BiliLiveSource.mk ([] ++ uid)%list ∅.

(** The state a status poller runs on: the source and the pool. *)
Definition LiveState : Type := BiliLiveSource.t * sync.Pool LiveInfo.t.

(** One iteration of [for _, id := range b.uid] in [BiliLiveSource.Send],
    at ticker time [now], given the response fetched for [id]. Returns the
    new state and the messages sent on [ch]. *)
Definition BiliLiveSource_Send_id {parser : gjson.Parser} (now : Z) (id : Z) (resp : Response)
    (st : LiveState) : LiveState * list push.Msg :=
  let '(b, liveInfoPool) := st in
  match getInfo id resp liveInfoPool with
  | (inr err, liveInfoPool) => ((b, liveInfoPool), [])
  | (inl info, liveInfoPool) =>
      if (LiveInfo.Code info =? 0)
         && Bool.eqb (LiveInfo.LiveStatus info)
                (BiliLiveSource.living_at b (LiveInfo.Mid info))
      then ((b, sync.Put (LiveInfo.Reset info) liveInfoPool), [])
      else
        let msg := push.mkMsg now BiliLiveMsg (LiveInfo.Uname info) "" "" [] "" in
        let '(b, msg) :=
          if negb (LiveInfo.Code info =? 0) then
            (b, push.mkMsg (push.Times msg) (push.Flag msg) (push.Author msg)
                  "获取直播间状态失败"
                  ("[error] " +:+ LiveInfo.Msg info +:+ ", code="
                     +:+ itoa (LiveInfo.Code info))
                  (push.Img msg) (push.Src msg))
          else if LiveInfo.LiveStatus info then
            (BiliLiveSource.set_living (LiveInfo.Mid info) true b,
             push.mkMsg (push.Times msg) (push.Flag msg) (push.Author msg)
               "开播了"
               ("标题：" +:+ dquote +:+ LiveInfo.Title info +:+ dquote)
               [LiveInfo.Cover info]
               (liveUrlPrefix +:+ itoa (LiveInfo.RoomId info)))
          else
            (BiliLiveSource.set_living (LiveInfo.Mid info) false b,
             push.mkMsg (push.Times msg) (push.Flag msg) (push.Author msg)
               "下播了" "😭😭😭" (push.Img msg) (push.Src msg))
        in
        ((b, sync.Put (LiveInfo.Reset info) liveInfoPool), [msg])
  end.

(** A run of iterations, each account with the response fetched for it. *)
Fixpoint BiliLiveSource_Send_ids {parser : gjson.Parser} (now : Z) (polls : list (Z * Response))
    (st : LiveState) : LiveState * list push.Msg :=
  match polls with
  | [] => (st, [])
  | (id, resp) :: polls' =>
      let '(st, out) := BiliLiveSource_Send_id now id resp st in
      let '(st, out') := BiliLiveSource_Send_ids now polls' st in
      (st, (out ++ out')%list)
  end.

(** One [case now := <-ticker.C] of [BiliLiveSource.Send]: every tracked
    account in order, [fetch] listing the responses in that order. *)
Definition BiliLiveSource_Send_tick {parser : gjson.Parser} (now : Z) (fetch : list Response)
    (st : LiveState) : LiveState * list push.Msg :=
  BiliLiveSource_Send_ids now (zip (BiliLiveSource.uid (fst st)) fetch) st.

(** ** The feed poller and the item classifier *)

Definition DynamicTypeForward := "DYNAMIC_TYPE_FORWARD".
Definition DynamicTypeDraw := "DYNAMIC_TYPE_DRAW".
Definition DynamicTypeAV := "DYNAMIC_TYPE_AV".
Definition DynamicTypeWord := "DYNAMIC_TYPE_WORD".
Definition DynamicTypeArticle := "DYNAMIC_TYPE_ARTICLE".
Definition DynamicTypeMusic := "DYNAMIC_TYPE_MUSIC".
Definition DynamicTypePGC := "DYNAMIC_TYPE_PGC".
Definition DynamicTypeLive := "DYNAMIC_TYPE_LIVE_RCMD".

Module DynamicInfo.
Record t : Type := mk {
  types : string;
  id : string;
  text : string;
  img : list string;
  author : string;
  src : string;
  times : Z
}.

(** [new(DynamicInfo)]. *)
Definition new : t := mk "" "" "" [] "" "" 0.

(** [Reset] leaves [times] as it is. *)
Definition Reset (d : t) : t :=
  {| types := ""; id := ""; text := ""; img := []; author := ""; src := "";
     times := times d |}.

Definition set_types (v : string) (d : t) : t :=
  mk v (id d) (text d) (img d) (author d) (src d) (times d).
Definition set_id (v : string) (d : t) : t :=
  mk (types d) v (text d) (img d) (author d) (src d) (times d).
Definition set_text (v : string) (d : t) : t :=
  mk (types d) (id d) v (img d) (author d) (src d) (times d).
Definition set_img (v : list string) (d : t) : t :=
  mk (types d) (id d) (text d) v (author d) (src d) (times d).
Definition set_author (v : string) (d : t) : t :=
  mk (types d) (id d) (text d) (img d) v (src d) (times d).
Definition set_src (v : string) (d : t) : t :=
  mk (types d) (id d) (text d) (img d) (author d) v (times d).
Definition set_times (v : Z) (d : t) : t :=
  mk (types d) (id d) (text d) (img d) (author d) (src d) v.
End DynamicInfo.

(** The size of a result, the measure [parseDynamic] recurses on. *)
Fixpoint Value_size (v : gjson.Value) : nat :=
  match v with
  | gjson.VArray _ elems => S (list_sum (map Value_size elems))
  | gjson.VObject _ members =>
      S (list_sum (map (fun kv => Value_size (snd kv)) members))
  | _ => 1%nat
  end.

Definition Result_size (r : gjson.Result) : nat :=
  match r with
  | Some v => Value_size v
  | None => 0%nat
  end.

Lemma member_size key ms v :
  gjson.member key ms = Some v ->
  (Value_size v <= list_sum (map (fun kv => Value_size (snd kv)) ms))%nat.
Proof.
  induction ms as [|[k w] ms IH]; simpl; [discriminate|].
  destruct (String.eqb k key).
  - intros [= ->]. lia.
  - intros Hm. specialize (IH Hm). lia.
Qed.

Lemma nth_error_size elems i v :
  nth_error elems i = Some v ->
  (Value_size v <= list_sum (map Value_size elems))%nat.
Proof.
  revert i. induction elems as [|w elems IH]; intros [|i]; simpl; try discriminate.
  - intros [= ->]. lia.
  - intros Hn. specialize (IH _ Hn). lia.
Qed.

Lemma child_size key v : (Result_size (gjson.child key v) < Value_size v)%nat.
Proof.
  destruct v; simpl; try lia.
  - destruct (gjson.index_of key) as [i|]; simpl; [|lia].
    destruct (nth_error elems i) as [w|] eqn:Hn; simpl; [|lia].
    apply nth_error_size in Hn. lia.
  - destruct (gjson.member key members) as [w|] eqn:Hm; simpl; [|lia].
    apply member_size in Hm. lia.
Qed.

(** The embedded original of a repost is smaller than the repost. *)
Lemma orig_size item :
  gjson.String (gjson.Get item "type") = DynamicTypeForward ->
  (Result_size (gjson.Get item "orig") < Result_size item)%nat.
Proof.
  destruct item as [v|]; [intros _|discriminate].
  change (gjson.Get (Some v) "orig") with (gjson.child "orig" v).
  apply child_size.
Qed.

(** [parseDynamic]: classifies one raw feed item; [None] is Go's nil. The
    pool [dynInfoPool] is threaded. A repost recurses on its embedded
    original, which is a strictly smaller result. *)
Equations parseDynamic {parser : gjson.Parser} (item : gjson.Result)
    (dynInfoPool : sync.Pool DynamicInfo.t)
  : option DynamicInfo.t * sync.Pool DynamicInfo.t
  by wf (Result_size item) lt :=
parseDynamic item dynInfoPool :=
  let types := gjson.String (gjson.Get item "type") in
  let '(info, dynInfoPool) := sync.Get DynamicInfo.new dynInfoPool in
  let info := DynamicInfo.set_id (gjson.String (gjson.Get item "id_str")) info in
  let info := DynamicInfo.set_src (dynamicUrlPrefix +:+ DynamicInfo.id info) info in
  let author := gjson.Get item "modules.module_author" in
  let info := DynamicInfo.set_author (gjson.String (gjson.Get author "name")) info in
  let pubTs := gjson.Int (gjson.Get author "pub_ts") in
  let info := DynamicInfo.set_times pubTs info in
  let dynamic := gjson.Get item "modules.module_dynamic" in
  if decide (types = DynamicTypeWord) then
    let info := DynamicInfo.set_types "发布动态" info in
    let info := DynamicInfo.set_text (gjson.String (gjson.Get dynamic "desc.text")) info in
    (Some info, dynInfoPool)
  else if decide (types = DynamicTypeDraw) then
    let info := DynamicInfo.set_types "发布动态" info in
    let info := DynamicInfo.set_text (gjson.String (gjson.Get dynamic "desc.text")) info in
    let img := gjson.Array (gjson.Get dynamic "major.draw.items") in
    let info :=
      fold_left (fun info img_i =>
                   DynamicInfo.set_img
                     (DynamicInfo.img info ++ [gjson.String (gjson.Get img_i "src")])%list
                     info)
                img info in
    (Some info, dynInfoPool)
  else if decide (types = DynamicTypeAV) then
    let info := DynamicInfo.set_types "投稿视频" info in
    let archive := gjson.Get dynamic "major.archive" in
    let info := DynamicInfo.set_id (gjson.String (gjson.Get archive "bvid")) info in
    let info := DynamicInfo.set_src (videoUrlPrefix +:+ DynamicInfo.id info) info in
    let desc := gjson.String (gjson.Get archive "desc") in
    let title := gjson.String (gjson.Get archive "title") in
    let info := DynamicInfo.set_text (title +:+ nl +:+ desc) info in
    let info := DynamicInfo.set_img [gjson.String (gjson.Get archive "cover")] info in
    (Some info, dynInfoPool)
  else match decide (types = DynamicTypeForward) with
  | left Hforward =>
    let info := DynamicInfo.set_types "转发动态" info in
    let text := gjson.String (gjson.Get dynamic "desc.text") in
    let orig := gjson.Get item "orig" in
    let '(origInfo, dynInfoPool) := parseDynamic orig dynInfoPool in
    match origInfo with
    | None => (None, dynInfoPool)
    | Some origInfo =>
        let info :=
          if decide (DynamicInfo.types origInfo = DynamicTypeLive) then
            let info := DynamicInfo.set_types "分享直播间" info in
            DynamicInfo.set_text
              (text +:+ nl +:+ "分享" +:+ dquote +:+ DynamicInfo.author origInfo
                 +:+ dquote +:+ "的直播间" +:+ nl +:+ DynamicInfo.text origInfo) info
          else
            DynamicInfo.set_text
              (text +:+ " " +:+ nl +:+ "转发自：@" +:+ DynamicInfo.author origInfo
                 +:+ nl +:+ DynamicInfo.text origInfo) info in
        let info := DynamicInfo.set_img (DynamicInfo.img origInfo) info in
        (Some info, dynInfoPool)
    end
  | right _ =>
  if decide (types = DynamicTypeArticle) then
    let info := DynamicInfo.set_types "投稿专栏" info in
    let article := gjson.Get dynamic "major.article" in
    let info := DynamicInfo.set_id (itoa (gjson.Int (gjson.Get article "id"))) info in
    let info := DynamicInfo.set_src (articleUrlPrefix +:+ DynamicInfo.id info) info in
    let desc := gjson.String (gjson.Get article "desc") in
    let title := gjson.String (gjson.Get article "title") in
    let info := DynamicInfo.set_text (title +:+ nl +:+ desc) info in
    let info := DynamicInfo.set_img [gjson.String (gjson.Get article "covers.0")] info in
    (Some info, dynInfoPool)
  else if decide (types = DynamicTypeMusic) then
    let info := DynamicInfo.set_types "投稿音频" info in
    let music := gjson.Get dynamic "major.music" in
    let info := DynamicInfo.set_id (itoa (gjson.Int (gjson.Get music "id"))) info in
    let info := DynamicInfo.set_src (musicUrlPrefix +:+ DynamicInfo.id info) info in
    let info := DynamicInfo.set_text (gjson.String (gjson.Get music "title")) info in
    let info := DynamicInfo.set_img [gjson.String (gjson.Get music "cover")] info in
    (Some info, dynInfoPool)
  else if decide (types = DynamicTypePGC) then
    let pgc := gjson.Get dynamic "major.pgc" in
    let info := DynamicInfo.set_text (gjson.String (gjson.Get pgc "title")) info in
    let info := DynamicInfo.set_img [gjson.String (gjson.Get pgc "cover")] info in
    (Some info, dynInfoPool)
  else if decide (types = DynamicTypeLive) then
    let info := DynamicInfo.set_types DynamicTypeLive info in
    let content := gjson.String (gjson.Get dynamic "major.live_rcmd.content") in
    if decide (content = "") then (None, dynInfoPool)
    else
      let liveInfo := gjson.Get (gjson.Parse content) "live_play_info" in
      let info := DynamicInfo.set_text
                    ("标题：" +:+ dquote +:+ gjson.String (gjson.Get liveInfo "title")
                       +:+ dquote) info in
      let info := DynamicInfo.set_img [gjson.String (gjson.Get liveInfo "cover")] info in
      (Some info, dynInfoPool)
  else
    let info := DynamicInfo.set_types "发布动态" info in
    let info := DynamicInfo.set_text "未处理的动态类型" info in
    (Some info, dynInfoPool)
  end.
Next Obligation.
  intros. apply orig_size. assumption.
Qed.

Module BiliDynamicSource.
Record t : Type := mk {
  uid : list Z;
  lastTable : gmap Z Z
}.

(** [b.lastTable[k]]: an absent key reads as [0]. *)
Definition lastTable_at (b : t) (k : Z) : Z := default 0 (lastTable b !! k).

Definition set_lastTable (k : Z) (v : Z) (b : t) : t :=
  mk (uid b) (<[k := v]> (lastTable b)).
End BiliDynamicSource.

Definition NewBiliDynamicSource (uid : list Z) : BiliDynamicSource.t :=
  BiliDynamicSource.mk uid ∅.

(** The body of [for _, item := range items] in [space], on the loop
    state [(infos, newest, dynInfoPool)]; [last] is fixed before the loop. *)
Definition space_item {parser : gjson.Parser} (last : Z)
    (acc : list DynamicInfo.t * Z * sync.Pool DynamicInfo.t) (item : gjson.Result)
  : list DynamicInfo.t * Z * sync.Pool DynamicInfo.t :=
  let '(infos, newest, dynInfoPool) := acc in
  let '(info, dynInfoPool) := parseDynamic item dynInfoPool in
  match info with
  | Some info =>
      if decide (DynamicInfo.types info = DynamicTypeLive) then
        (infos, newest, dynInfoPool)
      else
        let second := DynamicInfo.times info in
        let newest := max newest second in
        if second >? last then ((infos ++ [info])%list, newest, dynInfoPool)
        else (infos, newest, sync.Put (DynamicInfo.Reset info) dynInfoPool)
  | None => (infos, newest, dynInfoPool)
  end.

(** [BiliDynamicSource.space]: the response of [req.Get(spaceUrl, id)] is
    an argument; [now] is [now.Unix()]. Returns the new records or an
    error, with the source and the pool as they are afterwards. *)
Definition space {parser : gjson.Parser} (id : Z) (now : Z) (resp : Response)
    (b : BiliDynamicSource.t) (dynInfoPool : sync.Pool DynamicInfo.t)
  : (list DynamicInfo.t + error) * BiliDynamicSource.t * sync.Pool DynamicInfo.t :=
  match resp with
  | Failed err => (inr err, b, dynInfoPool)
  | Body body =>
      match checkResp body with
      | inr err => (inr (errors.Wrap err "read bili resp data"), b, dynInfoPool)
      | inl result =>
          let '(data, code, msg) := checkBiliData result in
          if negb (code =? 0) then (inr (errors.New msg), b, dynInfoPool)
          else
            let items := gjson.Array (gjson.Get data "items") in
            let infos := [] in
            let newest := 0 in
            let last := BiliDynamicSource.lastTable_at b id in
            let last := if last =? 0 then to_int64 (now - interval) else last in
            let '(infos, newest, dynInfoPool) :=
              fold_left (space_item last) items (infos, newest, dynInfoPool) in
            let last := max last newest in
            let b := BiliDynamicSource.set_lastTable id last b in
            (inl infos, b, dynInfoPool)
      end
  end.

(** The state a feed poller runs on: the source and the pool. *)
Definition DynState : Type := BiliDynamicSource.t * sync.Pool DynamicInfo.t.

(** The body of [for _, info := range infos] in [BiliDynamicSource.Send]:
    the message sent on [ch]; the record then goes back to the pool. *)
Definition BiliDynamicSource_msg (info : DynamicInfo.t) : push.Msg :=
  {| push.Flag := BiliDynMsg;
     push.Times := DynamicInfo.times info;
     push.Author := DynamicInfo.author info;
     push.Title := DynamicInfo.types info;
     push.Text := DynamicInfo.text info;
     push.Img := DynamicInfo.img info;
     push.Src := DynamicInfo.src info |}.

Definition BiliDynamicSource_Send_info
    (acc : list push.Msg * sync.Pool DynamicInfo.t) (info : DynamicInfo.t)
  : list push.Msg * sync.Pool DynamicInfo.t :=
  let '(out, dynInfoPool) := acc in
  let msg := BiliDynamicSource_msg info in
  ((out ++ [msg])%list, sync.Put (DynamicInfo.Reset info) dynInfoPool).

(** One iteration of [for _, id := range b.uid] in
    [BiliDynamicSource.Send]. *)
Definition BiliDynamicSource_Send_id {parser : gjson.Parser} (now : Z) (id : Z) (resp : Response)
    (st : DynState) : DynState * list push.Msg :=
  let '(b, dynInfoPool) := st in
  match space id now resp b dynInfoPool with
  | (inr err, b, dynInfoPool) => ((b, dynInfoPool), [])
  | (inl infos, b, dynInfoPool) =>
      let '(out, dynInfoPool) :=
        fold_left BiliDynamicSource_Send_info infos ([], dynInfoPool) in
      ((b, dynInfoPool), out)
  end.

Fixpoint BiliDynamicSource_Send_ids {parser : gjson.Parser} (now : Z) (polls : list (Z * Response))
    (st : DynState) : DynState * list push.Msg :=
  match polls with
  | [] => (st, [])
  | (id, resp) :: polls' =>
      let '(st, out) := BiliDynamicSource_Send_id now id resp st in
      let '(st, out') := BiliDynamicSource_Send_ids now polls' st in
      (st, (out ++ out')%list)
  end.

(** One [case now := <-ticker.C] of [BiliDynamicSource.Send]. *)
Definition BiliDynamicSource_Send_tick {parser : gjson.Parser} (now : Z) (fetch : list Response)
    (st : DynState) : DynState * list push.Msg :=
  BiliDynamicSource_Send_ids now (zip (BiliDynamicSource.uid (fst st)) fetch) st.

(** ** The orchestrator *)

Module Sink.
(** Modelled from the spec: the Output capability, the interface [Sink]
    declared elsewhere in the package: [Receive(msg) error], with [None]
    for a nil error. *)
Record t : Type := mk { Receive : push.Msg -> option error }.
End Sink.

Module Source.
(** Modelled from the spec: the Source capability, the interface [Source]
    declared elsewhere in the package ([Send(ctx, ch)]), here with the two
    implementations of this file. *)
Inductive t : Type :=
| Live (s : BiliLiveSource.t)
| Dynamic (s : BiliDynamicSource.t).
End Source.

Module Bot.
(** The struct [Bot]; of the channel [ch] the capacity. For the dispatch
    loop the sources and the channel they fill are the environment: what
    they deliver shows up as the messages the loop receives from [ch]. *)
Record t : Type := mk {
  sources : list Source.t;
  sinks : list Sink.t;
  ch : nat
}.

(** [AppendSource] and [AppendSink]: nil values are skipped. *)
Definition AppendSource (s : list (option Source.t)) (b : t) : t :=
  fold_left (fun b source =>
               match source with
               | Some source => mk (sources b ++ [source])%list (sinks b) (ch b)
               | None => b
               end) s b.

Definition AppendSink (s : list (option Sink.t)) (b : t) : t :=
  fold_left (fun b sink =>
               match sink with
               | Some sink => mk (sources b) (sinks b ++ [sink])%list (ch b)
               | None => b
               end) s b.

(** A delivery goroutine [go func(s Sink) {...}(s)] that has been started
    and has not run yet: the sink it was given (with its position in
    [b.sinks]) and the message it captured. *)
Definition goroutine : Type := nat * Sink.t * push.Msg.

(** The state of a run of [Bot.Run]. [received] lists the [Receive] calls
    made so far, by sink position, and [stdout] the lines printed. *)
Record state : Type := mkState {
  returned : bool;
  goroutines : list goroutine;
  received : list (nat * push.Msg);
  stdout : list string
}.

Definition start : state := mkState false [] [] [].

(** What can happen next: the [select] takes [<-ctx.Done()], the [select]
    takes [msg := <-b.ch], or the scheduler runs the pending goroutine at
    position [k]. *)
Inductive event : Type :=
| Done
| Recv (msg : push.Msg)
| Sched (k : nat).

(** The body of one delivery goroutine. *)
Definition deliver (g : goroutine) (st : state) : state :=
  let '(i, s, msg) := g in
  let err := Sink.Receive s msg in
  mkState (returned st) (goroutines st) (received st ++ [(i, msg)])%list
          (match err with
           | Some err => (stdout st ++ [err])%list
           | None => stdout st
           end).

(** One step of [Run]; [None] when the event cannot happen in [st]. *)
Definition step (b : t) (e : event) (st : state) : option state :=
  match e with
  | Done =>
      if returned st then None
      else Some (mkState true (goroutines st) (received st) (stdout st))
  | Recv msg =>
      if returned st then None
      else Some (mkState (returned st)
                   (goroutines st ++ imap (fun i s => (i, s, msg)) (sinks b))%list
                   (received st) (stdout st))
  | Sched k =>
      match goroutines st !! k with
      | Some g =>
          Some (deliver g (mkState (returned st) (delete k (goroutines st))
                             (received st) (stdout st)))
      | None => None
      end
  end.

(** [Run] along a sequence of events. *)
Fixpoint run (b : t) (evs : list event) (st : state) : option state :=
  match evs with
  | [] => Some st
  | e :: evs' =>
      match step b e st with
      | Some st' => run b evs' st'
      | None => None
      end
  end.

(** [Bot.Run] from its start. *)
Definition Run (b : t) (evs : list event) : option state := run b evs start.

(** The messages taken from [ch] along a run. *)
Definition dequeued (evs : list event) : list push.Msg :=
  omap (fun e => match e with Recv msg => Some msg | _ => None end) evs.

(** The messages sink [i] has received, and those still on their way to it. *)
Definition received_by (i : nat) (st : state) : list push.Msg :=
  omap (fun r => if decide (r.1 = i) then Some r.2 else None) (received st).

Definition pending_for (i : nat) (gs : list goroutine) : list push.Msg :=
  omap (fun g : goroutine => if decide (g.1.1 = i) then Some g.2 else None) gs.

(** Every message taken from the channel is, for each sink, either
    received or still on its way. *)
Definition conserved (b : t) (deq : list push.Msg) (st : state) : Prop :=
  forall i, (i < length (sinks b))%nat ->
    deq ≡ₚ (received_by i st ++ pending_for i (goroutines st))%list.
End Bot.

Definition NewBot (buf : nat) : Bot.t := Bot.mk [] [] buf.

(** ** What the properties are stated with *)

(** Every record in a pool has been through [Reset]. *)
Definition liveInfoPool_ok (p : sync.Pool LiveInfo.t) : Prop :=
  Forall (fun l => LiveInfo.Reset l = l) p.

Definition dynInfoPool_ok (p : sync.Pool DynamicInfo.t) : Prop :=
  Forall (fun d => DynamicInfo.Reset d = d) p.

Definition item_type (item : gjson.Result) : string :=
  gjson.String (gjson.Get item "type").

Definition live_content (item : gjson.Result) : string :=
  gjson.String
    (gjson.Get (gjson.Get item "modules.module_dynamic") "major.live_rcmd.content").

Definition pub_ts (item : gjson.Result) : Z :=
  gjson.Int (gjson.Get (gjson.Get item "modules.module_author") "pub_ts").

(** The items [parseDynamic] answers nil for. *)
Inductive suppressed : gjson.Result -> Prop :=
| suppressed_live item :
    item_type item = DynamicTypeLive ->
    live_content item = "" ->
    suppressed item
| suppressed_forward item :
    item_type item = DynamicTypeForward ->
    suppressed (gjson.Get item "orig") ->
    suppressed item.

(** The same with a live announcement also suppressed when its content is
    text the parser finds no value in. *)
Inductive suppressed_or_unparseable {parser : gjson.Parser} : gjson.Result -> Prop :=
| unparseable_live item :
    item_type item = DynamicTypeLive ->
    live_content item = "" \/ gjson.Parse (live_content item) = None ->
    suppressed_or_unparseable item
| unparseable_forward item :
    item_type item = DynamicTypeForward ->
    suppressed_or_unparseable (gjson.Get item "orig") ->
    suppressed_or_unparseable item.

Definition known_types : list string :=
  [DynamicTypeWord; DynamicTypeDraw; DynamicTypeAV; DynamicTypeForward;
   DynamicTypeArticle; DynamicTypeMusic; DynamicTypePGC; DynamicTypeLive].

(** The classifier's answer on a pool that has nothing stored. *)
Definition classify {parser : gjson.Parser} (item : gjson.Result) : option DynamicInfo.t :=
  (parseDynamic item []).1.

(** A response the status poller cannot use: a transport error, or an
    empty payload. *)
Definition fetch_failed (resp : Response) : Prop :=
  match resp with
  | Failed _ => True
  | Body None => True
  | Body (Some bytes) => bytes = ""
  end.

(** The [live_room] part of a profile payload. *)
Definition live_room {parser : gjson.Parser} (body : string) : gjson.Result :=
  gjson.Get (gjson.Get (gjson.Parse body) "data") "live_room".

Definition profile_name {parser : gjson.Parser} (body : string) : string :=
  gjson.String (gjson.Get (gjson.Get (gjson.Parse body) "data") "name").

(** The payload [body] is a successful answer with upstream code 0 whose
    live-room part reports the live status [live]. *)
Definition reports {parser : gjson.Parser} (body : string) (live : bool) : Prop :=
  body <> "" /\
  gjson.Int (gjson.Get (gjson.Parse body) "code") = 0 /\
  gjson.Exists (live_room body) = true /\
  (gjson.Int (gjson.Get (live_room body) "liveStatus") =? 1) = live.

(** The three messages of the status poller. *)
Definition went_live_msg (now : Z) (author title cover : string) (roomid : Z) : push.Msg :=
  {| push.Times := now; push.Flag := BiliLiveMsg; push.Author := author;
     push.Title := "开播了";
     push.Text := "标题：" +:+ dquote +:+ title +:+ dquote;
     push.Img := [cover];
     push.Src := liveUrlPrefix +:+ itoa roomid |}.

Definition went_offline_msg (now : Z) (author : string) : push.Msg :=
  {| push.Times := now; push.Flag := BiliLiveMsg; push.Author := author;
     push.Title := "下播了"; push.Text := "😭😭😭"; push.Img := [];
     push.Src := "" |}.

Definition fetch_error_msg (now : Z) (author msg : string) (code : Z) : push.Msg :=
  {| push.Times := now; push.Flag := BiliLiveMsg; push.Author := author;
     push.Title := "获取直播间状态失败";
     push.Text := "[error] " +:+ msg +:+ ", code=" +:+ itoa code;
     push.Img := []; push.Src := "" |}.

Definition transition_msg {parser : gjson.Parser} (now : Z) (body : string) (live : bool) : push.Msg :=
  if live then
    went_live_msg now (profile_name body)
      (gjson.String (gjson.Get (live_room body) "title"))
      (gjson.String (gjson.Get (live_room body) "cover"))
      (gjson.Int (gjson.Get (live_room body) "roomid"))
  else went_offline_msg now (profile_name body).

(** The items of a feed payload. *)
Definition feed_items {parser : gjson.Parser} (body : string) : list gjson.Result :=
  gjson.Array (gjson.Get (gjson.Get (gjson.Parse body) "data") "items").

(** The payload [body] is a successful feed answer with upstream code 0. *)
Definition feed_ok {parser : gjson.Parser} (body : string) : Prop :=
  body <> "" /\ gjson.Int (gjson.Get (gjson.Parse body) "code") = 0.

(** The records [space] counts in a batch: those of the items that
    classify, top-level live announcements left out, in the order
    returned. *)
Definition counted {parser : gjson.Parser} (items : list gjson.Result) : list DynamicInfo.t :=
  filter (fun info => DynamicInfo.types info <> DynamicTypeLive) (omap classify items).

(** The greatest publish time among records, zero when there is none. *)
Definition newest_of (infos : list DynamicInfo.t) : Z :=
  foldr Z.max 0 (map DynamicInfo.times infos).

(** The watermark a poll at [now] compares against: the stored one, or
    [now - interval] while none is stored. *)
Definition watermark_floor (b : BiliDynamicSource.t) (id now : Z) : Z :=
  if BiliDynamicSource.lastTable_at b id =? 0 then to_int64 (now - interval)
  else BiliDynamicSource.lastTable_at b id.

(** [t] is the greatest element of [ts]. *)
Definition is_max (t : Z) (ts : list Z) : Prop :=
  t ∈ ts /\ Forall (fun t' => t' <= t) ts.

(** ** Payloads for the worked scenarios *)

Module Scenario.
Definition obj : list (string * gjson.Value) -> gjson.Value := gjson.VObject "".
Definition arr : list gjson.Value -> gjson.Value := gjson.VArray "".
Definition str : string -> gjson.Value := gjson.VString.
Definition num (z : Z) : gjson.Value := gjson.VNumber (itoa z) z.

(** A parser that knows the listed documents by their text and finds no
    value in any other text. *)
Definition parser (docs : list (string * gjson.Value)) : gjson.Parser :=
  fun text => gjson.member text docs.

(** A profile payload with a live room. *)
Definition profile (liveStatus : Z) (title cover : string) (roomid : Z) : gjson.Value :=
  obj [("code", num 0);
       ("data", obj [("name", str "up");
                     ("live_room", obj [("liveStatus", num liveStatus);
                                        ("title", str title);
                                        ("cover", str cover);
                                        ("roomid", num roomid)])])].

(** A profile payload without the live-room part, and an upstream error. *)
Definition profile_no_room : gjson.Value :=
  obj [("code", num 0); ("data", obj [("name", str "up")])].

Definition upstream_error (code : Z) (msg : string) : gjson.Value :=
  obj [("code", num code); ("msg", str msg)].

(** A feed item: type, author, publish time, the [module_dynamic] part and
    further members such as [orig]. *)
Definition item (ty name : string) (ts : Z) (dynamic extra : list (string * gjson.Value))
  : gjson.Value :=
  obj ([("type", str ty); ("id_str", str "77");
        ("modules", obj [("module_author", obj [("name", str name); ("pub_ts", num ts)]);
                         ("module_dynamic", obj dynamic)])] ++ extra)%list.

Definition word (name : string) (ts : Z) (text : string) : gjson.Value :=
  item DynamicTypeWord name ts [("desc", obj [("text", str text)])] [].

Definition forward (name : string) (ts : Z) (text : string) (orig : gjson.Value)
  : gjson.Value :=
  item DynamicTypeForward name ts [("desc", obj [("text", str text)])] [("orig", orig)].

Definition live_rcmd (name : string) (ts : Z) (content : string) : gjson.Value :=
  item DynamicTypeLive name ts
       [("major", obj [("live_rcmd", obj [("content", str content)])])] [].

Definition pgc (name : string) (ts : Z) (title cover : string) : gjson.Value :=
  item DynamicTypePGC name ts
       [("major", obj [("pgc", obj [("title", str title); ("cover", str cover)])])] [].

Definition feed (items : list gjson.Value) : gjson.Value :=
  obj [("code", num 0); ("data", obj [("items", arr items)])].

(** Scenario A: account 42, live, title hello, cover c.jpg, room 100. *)
Definition scenario_A : gjson.Parser := parser [("A", profile 1 "hello" "c.jpg" 100)].

(** The same account reported offline. *)
Definition offline : gjson.Parser := parser [("off", profile 0 "hello" "c.jpg" 100)].

Definition errors : gjson.Parser :=
  parser [("denied", upstream_error (-400) "request error"); ("bare", profile_no_room)].

(** Scenario C: a first poll at [T] = 100000 returning three plain posts
    published at [T-5], [T-20000] and [T-1]. *)
Definition scenario_C : gjson.Parser :=
  parser [("C", feed [word "up" 99995 "a"; word "up" 80000 "b"; word "up" 99999 "c"])].

(** A poll that returns one post older than the stored watermark. *)
Definition stale : gjson.Parser := parser [("stale", feed [word "up" 50 "old"])].

(** A poll that returns no items. *)
Definition empty_feed : gjson.Parser := parser [("none", feed [])].

(** Scenario D: Alice's plain post, reposted with a commentary. *)
Definition scenario_D : gjson.Value :=
  forward "Bob" 5 "check this out" (word "Alice" 3 "Hi").

(** A repost of a live announcement whose content is not JSON. *)
Definition garbled_live : gjson.Value := live_rcmd "up" 9 "x".
Definition no_documents : gjson.Parser := parser [].

Definition episode : gjson.Value := pgc "up" 9 "Episode 1" "e.jpg".

(** Two sinks, the first of which fails on every message. *)
Definition failing : Sink.t := Sink.mk (fun _ => Some "unreachable").
Definition working : Sink.t := Sink.mk (fun _ => None).
Definition two_sinks : Bot.t := Bot.AppendSink [Some failing; Some working] (NewBot 8).
Definition m1 : push.Msg := push.mkMsg 1 BiliLiveMsg "up" "开播了" "" [] "".
Definition m2 : push.Msg := push.mkMsg 2 BiliDynMsg "up" "发布动态" "hi" [] "".
End Scenario.

(** ** What the further properties are stated with *)

(** The number of changes of status along a run of reported statuses that
    starts from [cur]. *)
Fixpoint changes (cur : bool) (lives : list bool) : nat :=
  match lives with
  | [] => 0%nat
  | live :: lives' => ((if Bool.eqb live cur then 0 else 1) + changes live lives')%nat
  end.

(** Polls of the account [id], each of which either reports a live status
    or fails to fetch, and the statuses reported, in order. *)
Inductive observes {parser : gjson.Parser} (id : Z) : list (Z * Response) -> list bool -> Prop :=
| observes_nil : observes id [] []
| observes_report body live polls lives :
    reports body live ->
    observes id polls lives ->
    observes id ((id, Body (Some body)) :: polls) (live :: lives)
| observes_failed resp polls lives :
    fetch_failed resp ->
    observes id polls lives ->
    observes id ((id, resp) :: polls) lives.

(** A response that reports the account offline, or cannot be used. *)
Definition offline_or_failed {parser : gjson.Parser} (resp : Response) : Prop :=
  fetch_failed resp \/ exists body, resp = Body (Some body) /\ reports body false.

(** A response that carries a non-zero upstream code, or code 0 without
    the live-room part. *)
Definition upstream_error {parser : gjson.Parser} (resp : Response) : Prop :=
  exists body, resp = Body (Some body) /\ body <> "" /\
    (gjson.Int (gjson.Get (gjson.Parse body) "code") <> 0 \/
     gjson.Exists (live_room body) = false).

(** A response the feed poller gives up on: a failed fetch, or a payload
    with a non-zero upstream code. *)
Definition feed_failed {parser : gjson.Parser} (resp : Response) : Prop :=
  fetch_failed resp \/
  exists body, resp = Body (Some body) /\
    gjson.Int (gjson.Get (gjson.Parse body) "code") <> 0.

(** The link prefix that goes with an item type. *)
Definition link_prefix (types : string) : string :=
  if decide (types = DynamicTypeAV) then videoUrlPrefix
  else if decide (types = DynamicTypeArticle) then articleUrlPrefix
  else if decide (types = DynamicTypeMusic) then musicUrlPrefix
  else dynamicUrlPrefix.



(** ** Payloads for further examples *)

Module Walkthrough.
(** One account seen live and offline, and a payload that is not JSON. *)
Definition on_off : gjson.Parser :=
  Scenario.parser [("A", Scenario.profile 1 "hello" "c.jpg" 100);
                   ("off", Scenario.profile 0 "hello" "c.jpg" 100);
                   ("denied", Scenario.upstream_error (-400) "request error")].

(** An image post with two pictures. *)
Definition draw : gjson.Value :=
  Scenario.item DynamicTypeDraw "up" 9
    [("desc", Scenario.obj [("text", Scenario.str "look")]);
     ("major", Scenario.obj
        [("draw", Scenario.obj
           [("items", Scenario.arr [Scenario.obj [("src", Scenario.str "1.jpg")];
                                    Scenario.obj [("src", Scenario.str "2.jpg")]])])])]
    [].

(** A video submission. *)
Definition video : gjson.Value :=
  Scenario.item DynamicTypeAV "up" 9
    [("major", Scenario.obj
        [("archive", Scenario.obj [("bvid", Scenario.str "BV1xx");
                                   ("title", Scenario.str "t");
                                   ("desc", Scenario.str "d");
                                   ("cover", Scenario.str "v.jpg")])])]
    [].

(** A live announcement with content, and a repost of it. *)
Definition live : gjson.Value := Scenario.live_rcmd "up" 99990 "playing".
Definition shared_live : gjson.Value := Scenario.forward "fan" 99998 "come" live.

Definition feeds : gjson.Parser :=
  Scenario.parser
    [("playing", Scenario.obj [("live_play_info",
                                Scenario.obj [("title", Scenario.str "night");
                                              ("cover", Scenario.str "n.jpg")])]);
     ("C", Scenario.feed [Scenario.word "up" 99995 "a"; Scenario.word "up" 80000 "b";
                          Scenario.word "up" 99999 "c"]);
     ("D", Scenario.feed [Scenario.word "up" 99999 "c"; Scenario.word "up" 100004 "d"]);
     ("lives", Scenario.feed [live; Scenario.live_rcmd "up" 99999 ""]);
     ("shared", Scenario.feed [shared_live]);
     ("denied", Scenario.upstream_error (-400) "request error")].
End Walkthrough.

(** * Properties *)

(** ** The status poller *)

Section StatusPoller.
Context {parser : gjson.Parser}.

Lemma liveInfoPool_Get pool :
  liveInfoPool_ok pool ->
  (sync.Get LiveInfo.new pool).1 = LiveInfo.new /\
  liveInfoPool_ok (sync.Get LiveInfo.new pool).2.
Proof.
  destruct pool as [|l pool]; simpl; [done|].
  inversion 1 as [|? ? Hl Hpool]; subst. split; [|done].
  rewrite <- Hl. reflexivity.
Qed.

Lemma liveInfoPool_Put info pool :
  liveInfoPool_ok pool -> liveInfoPool_ok (sync.Put (LiveInfo.Reset info) pool).
Proof. intros Hpool. by constructor. Qed.

Lemma checkResp_body body :
  body <> "" -> checkResp (Some body) = inl (gjson.Parse body).
Proof.
  intros Hbody. unfold checkResp.
  destruct (String.eqb_spec body ""); [done|reflexivity].
Qed.

Lemma checkResp_failed buf :
  fetch_failed (Body buf) -> checkResp buf = inr ErrEmptyRespData.
Proof. destruct buf as [bytes|]; simpl; [intros ->|]; reflexivity. Qed.

(** What [getInfo] returns for each kind of response. *)
Lemma getInfo_failed mid resp pool :
  fetch_failed resp -> exists err, getInfo mid resp pool = (inr err, pool).
Proof.
  destruct resp as [err|buf]; simpl; [by eexists|].
  intros Hbuf. rewrite (checkResp_failed buf Hbuf). by eexists.
Qed.

Lemma getInfo_reports mid body pool live :
  liveInfoPool_ok pool -> reports body live ->
  getInfo mid (Body (Some body)) pool =
    (inl (LiveInfo.mk 0 "" mid "" (profile_name body) live
            (gjson.Int (gjson.Get (live_room body) "roomid")) ""
            (gjson.String (gjson.Get (live_room body) "title"))
            (gjson.String (gjson.Get (live_room body) "cover"))),
     (sync.Get LiveInfo.new pool).2).
Proof.
  intros Hpool (Hbody & Hcode & Hroom & Hlive).
  unfold getInfo. rewrite (checkResp_body _ Hbody).
  destruct (liveInfoPool_Get pool Hpool) as [Hinfo _].
  destruct (sync.Get LiveInfo.new pool) as [info pool']. simpl in Hinfo. subst info.
  unfold checkBiliData. rewrite Hcode. simpl.
  fold (live_room body). rewrite Hroom. simpl. rewrite Hlive. reflexivity.
Qed.

Lemma getInfo_upstream_error mid body pool :
  liveInfoPool_ok pool -> body <> "" ->
  gjson.Int (gjson.Get (gjson.Parse body) "code") <> 0 ->
  getInfo mid (Body (Some body)) pool =
    (inl (LiveInfo.mk (gjson.Int (gjson.Get (gjson.Parse body) "code"))
            (gjson.String (gjson.Get (gjson.Parse body) "msg"))
            0 "" "" false 0 "" "" ""),
     (sync.Get LiveInfo.new pool).2).
Proof.
  intros Hpool Hbody Hcode.
  unfold getInfo. rewrite (checkResp_body _ Hbody).
  destruct (liveInfoPool_Get pool Hpool) as [Hinfo _].
  destruct (sync.Get LiveInfo.new pool) as [info pool']. simpl in Hinfo. subst info.
  unfold checkBiliData.
  destruct (Z.eqb_spec (gjson.Int (gjson.Get (gjson.Parse body) "code")) 0); [done|].
  simpl.
  destruct (Z.eqb_spec (gjson.Int (gjson.Get (gjson.Parse body) "code")) 0); [done|].
  reflexivity.
Qed.

Lemma getInfo_no_live_room mid body pool :
  liveInfoPool_ok pool -> body <> "" ->
  gjson.Int (gjson.Get (gjson.Parse body) "code") = 0 ->
  gjson.Exists (live_room body) = false ->
  getInfo mid (Body (Some body)) pool =
    (inl (LiveInfo.mk 400 "响应体中无live_room字段" mid "" (profile_name body)
            false 0 "" "" ""),
     (sync.Get LiveInfo.new pool).2).
Proof.
  intros Hpool Hbody Hcode Hroom.
  unfold getInfo. rewrite (checkResp_body _ Hbody).
  destruct (liveInfoPool_Get pool Hpool) as [Hinfo _].
  destruct (sync.Get LiveInfo.new pool) as [info pool']. simpl in Hinfo. subst info.
  unfold checkBiliData. rewrite Hcode. simpl.
  fold (live_room body). rewrite Hroom. reflexivity.
Qed.


(** Every response is a failed fetch, an upstream error, a profile without
    a live room, or a report of the live status. *)
Lemma response_cases resp :
  fetch_failed resp \/
  exists body, resp = Body (Some body) /\ body <> "" /\
    (gjson.Int (gjson.Get (gjson.Parse body) "code") <> 0 \/
     (gjson.Int (gjson.Get (gjson.Parse body) "code") = 0 /\
      gjson.Exists (live_room body) = false) \/
     exists live, reports body live).
Proof.
  destruct resp as [err|[body|]]; [by left| |by left].
  destruct (decide (body = "")) as [->|Hbody]; [by left|].
  right. exists body. split; [done|]. split; [done|].
  destruct (decide (gjson.Int (gjson.Get (gjson.Parse body) "code") = 0)) as [Hcode|Hcode];
    [|by left].
  right. destruct (gjson.Exists (live_room body)) eqn:Hroom; [|by left].
  right. by eexists.
Qed.

Lemma living_at_set_living b k v k' :
  BiliLiveSource.living_at (BiliLiveSource.set_living k v b) k' =
  if decide (k = k') then v else BiliLiveSource.living_at b k'.
Proof.
  unfold BiliLiveSource.living_at, BiliLiveSource.set_living. simpl.
  rewrite lookup_insert. by case_decide.
Qed.

(** A fetch failure changes nothing and sends nothing. *)
Lemma Send_id_failed now id resp st :
  fetch_failed resp -> BiliLiveSource_Send_id now id resp st = (st, []).
Proof.
  intros Hresp. destruct st as [b pool]. unfold BiliLiveSource_Send_id.
  destruct (getInfo_failed id resp pool Hresp) as [err ->]. reflexivity.
Qed.

(** An upstream error, or a profile without a live room, is reported and
    leaves the source as it is. *)
Lemma Send_id_upstream_error now id body b pool :
  liveInfoPool_ok pool -> body <> "" ->
  gjson.Int (gjson.Get (gjson.Parse body) "code") <> 0 ->
  BiliLiveSource_Send_id now id (Body (Some body)) (b, pool) =
    ((b, sync.Put LiveInfo.new (sync.Get LiveInfo.new pool).2),
     [fetch_error_msg now "" (gjson.String (gjson.Get (gjson.Parse body) "msg"))
        (gjson.Int (gjson.Get (gjson.Parse body) "code"))]).
Proof.
  intros Hpool Hbody Hcode. unfold BiliLiveSource_Send_id.
  rewrite getInfo_upstream_error by done. simpl.
  destruct (Z.eqb_spec (gjson.Int (gjson.Get (gjson.Parse body) "code")) 0); [done|].
  reflexivity.
Qed.

Lemma Send_id_no_live_room now id body b pool :
  liveInfoPool_ok pool -> body <> "" ->
  gjson.Int (gjson.Get (gjson.Parse body) "code") = 0 ->
  gjson.Exists (live_room body) = false ->
  BiliLiveSource_Send_id now id (Body (Some body)) (b, pool) =
    ((b, sync.Put LiveInfo.new (sync.Get LiveInfo.new pool).2),
     [fetch_error_msg now (profile_name body) "响应体中无live_room字段" 400]).
Proof.
  intros Hpool Hbody Hcode Hroom. unfold BiliLiveSource_Send_id.
  rewrite getInfo_no_live_room by done. reflexivity.
Qed.

(** A report of the live status: silent when it matches the table, one
    message and an update of the entry when it does not. *)
Lemma Send_id_reports now id body b pool live :
  liveInfoPool_ok pool -> reports body live ->
  BiliLiveSource_Send_id now id (Body (Some body)) (b, pool) =
    if Bool.eqb live (BiliLiveSource.living_at b id) then
      ((b, sync.Put LiveInfo.new (sync.Get LiveInfo.new pool).2), [])
    else
      ((BiliLiveSource.set_living id live b,
        sync.Put LiveInfo.new (sync.Get LiveInfo.new pool).2),
       [transition_msg now body live]).
Proof.
  intros Hpool Hrep. unfold BiliLiveSource_Send_id.
  rewrite (getInfo_reports id body pool live) by done. simpl.
  destruct (Bool.eqb live (BiliLiveSource.living_at b id)); [reflexivity|].
  destruct live; reflexivity.
Qed.

Lemma liveInfoPool_recycled pool :
  liveInfoPool_ok pool ->
  liveInfoPool_ok (sync.Put LiveInfo.new (sync.Get LiveInfo.new pool).2).
Proof.
  intros Hpool. constructor; [reflexivity|].
  by destruct (liveInfoPool_Get pool Hpool).
Qed.

(** The pool invariant is kept by every iteration. *)
Lemma Send_id_pool_ok now id resp st :
  liveInfoPool_ok st.2 ->
  liveInfoPool_ok (BiliLiveSource_Send_id now id resp st).1.2.
Proof.
  destruct st as [b pool]. intros Hpool. simpl in Hpool.
  destruct (response_cases resp)
    as [Hfail|(body & -> & Hbody & [Hcode|[[Hcode Hroom]|[live Hrep]]])].
  - by rewrite Send_id_failed.
  - rewrite Send_id_upstream_error by done. by apply liveInfoPool_recycled.
  - rewrite Send_id_no_live_room by done. by apply liveInfoPool_recycled.
  - rewrite (Send_id_reports now id body b pool live) by done.
    destruct (Bool.eqb live (BiliLiveSource.living_at b id));
      by apply liveInfoPool_recycled.
Qed.

(** Polling one account leaves the entries of the others alone. *)
Lemma Send_id_frame now id resp st k :
  liveInfoPool_ok st.2 -> id <> k ->
  BiliLiveSource.living_at (BiliLiveSource_Send_id now id resp st).1.1 k =
  BiliLiveSource.living_at st.1 k.
Proof.
  destruct st as [b pool]. intros Hpool Hk. simpl in Hpool.
  destruct (response_cases resp)
    as [Hfail|(body & -> & Hbody & [Hcode|[[Hcode Hroom]|[live Hrep]]])].
  - by rewrite Send_id_failed.
  - by rewrite Send_id_upstream_error.
  - by rewrite Send_id_no_live_room.
  - rewrite (Send_id_reports now id body b pool live) by done.
    destruct (Bool.eqb live (BiliLiveSource.living_at b id)); simpl; [done|].
    rewrite living_at_set_living. by case_decide.
Qed.

Lemma Send_ids_others now polls st k :
  liveInfoPool_ok st.2 -> Forall (fun p => p.1 <> k) polls ->
  BiliLiveSource.living_at (BiliLiveSource_Send_ids now polls st).1.1 k =
    BiliLiveSource.living_at st.1 k /\
  liveInfoPool_ok (BiliLiveSource_Send_ids now polls st).1.2.
Proof.
  revert st. induction polls as [|[id resp] polls IH]; intros st Hpool Hpolls; [done|].
  inversion Hpolls as [|? ? Hid Hrest]; subst. simpl in *.
  pose proof (Send_id_pool_ok now id resp st Hpool) as Hpool'.
  pose proof (Send_id_frame now id resp st k Hpool Hid) as Hframe.
  destruct (BiliLiveSource_Send_id now id resp st) as [st' out].
  destruct (IH st' Hpool' Hrest) as [IH1 IH2].
  destruct (BiliLiveSource_Send_ids now polls st') as [st'' out']. simpl in *.
  split; [congruence|done].
Qed.

(** After a report of the live status the table holds that status. *)
Lemma Send_id_records now id body st live :
  liveInfoPool_ok st.2 -> reports body live ->
  BiliLiveSource.living_at
    (BiliLiveSource_Send_id now id (Body (Some body)) st).1.1 id = live.
Proof.
  destruct st as [b pool]. intros Hpool Hrep. simpl in Hpool.
  rewrite (Send_id_reports now id body b pool live) by done.
  destruct (Bool.eqb live (BiliLiveSource.living_at b id)) eqn:Heq; simpl.
  - symmetry. by apply Bool.eqb_prop.
  - rewrite living_at_set_living. by case_decide.
Qed.

(** C1. For an account whose recorded live state differs from the one a
    successful poll (upstream code 0) reports, the poll sends exactly one
    message: for false to true the one titled 开播了 whose body holds the
    stream title, whose images are the cover alone and whose link is the
    live-room prefix followed by the room id; for true to false the one
    titled 下播了 with the fixed body; and the entry of the account becomes
    the reported state. An absent entry reads as false. A failed fetch
    (transport error or empty payload) sends nothing and changes nothing. *)
Theorem live_transition_sends_one_message now id body b pool live :
  liveInfoPool_ok pool ->
  reports body live ->
  BiliLiveSource.living_at b id = negb live ->
  (exists pool',
     BiliLiveSource_Send_id now id (Body (Some body)) (b, pool) =
       ((BiliLiveSource.mk (BiliLiveSource.uid b) (<[id := live]> (BiliLiveSource.living b)),
         pool'),
        [if live then
           went_live_msg now (profile_name body)
             (gjson.String (gjson.Get (live_room body) "title"))
             (gjson.String (gjson.Get (live_room body) "cover"))
             (gjson.Int (gjson.Get (live_room body) "roomid"))
         else went_offline_msg now (profile_name body)]) /\
     liveInfoPool_ok pool') /\
  (forall resp, fetch_failed resp ->
     BiliLiveSource_Send_id now id resp (b, pool) = ((b, pool), [])).
Proof.
  intros Hpool Hrep Hliving. split.
  - eexists. rewrite (Send_id_reports now id body b pool live) by done.
    rewrite Hliving. replace (Bool.eqb live (negb live)) with false by by destruct live.
    split; [reflexivity|]. by apply liveInfoPool_recycled.
  - intros resp Hresp. by apply Send_id_failed.
Qed.

(** C2. When a successful poll (upstream code 0) reports the live status
    the table already holds for the account (an absent entry holding
    false), nothing is sent and the table is unchanged. Hence of two
    successful polls of an account that report the same status, whatever
    the first one found and whatever polls of other accounts come in
    between, the second sends nothing. *)
Theorem unchanged_status_sends_nothing now id body b pool live :
  liveInfoPool_ok pool ->
  reports body live ->
  BiliLiveSource.living_at b id = live ->
  (exists pool',
     BiliLiveSource_Send_id now id (Body (Some body)) (b, pool) = ((b, pool'), []) /\
     liveInfoPool_ok pool') /\
  (forall b0 now0 body0 others now1,
     reports body0 live ->
     Forall (fun p => p.1 <> id) others ->
     let st1 := (BiliLiveSource_Send_id now0 id (Body (Some body0)) (b0, pool)).1 in
     let st2 := (BiliLiveSource_Send_ids now1 others st1).1 in
     (BiliLiveSource_Send_id now id (Body (Some body)) st2).2 = [] /\
     (BiliLiveSource_Send_id now id (Body (Some body)) st2).1.1 = st2.1).
Proof.
  intros Hpool Hrep Hliving. split.
  - eexists. rewrite (Send_id_reports now id body b pool live) by done.
    rewrite Hliving, Bool.eqb_reflx.
    split; [reflexivity|]. by apply liveInfoPool_recycled.
  - intros b0 now0 body0 others now1 Hrep0 Hothers st1 st2.
    assert (Hpool1 : liveInfoPool_ok st1.2).
    { by apply (Send_id_pool_ok now0 id (Body (Some body0)) (b0, pool)). }
    assert (Hst1 : BiliLiveSource.living_at st1.1 id = live).
    { by apply (Send_id_records now0 id body0 (b0, pool) live). }
    destruct (Send_ids_others now1 others st1 id Hpool1 Hothers) as [Hst2 Hpool2].
    fold st2 in Hst2, Hpool2. rewrite Hst1 in Hst2.
    clearbody st2. destruct st2 as [b2 pool2]. simpl in Hst2, Hpool2.
    rewrite (Send_id_reports now id body b2 pool2 live) by done.
    by rewrite Hst2, Bool.eqb_reflx.
Qed.

(** C8. When the fetch succeeds and the upstream payload carries a
    non-zero status code, or carries code 0 but no live-room part (which
    counts as code 400 with a local text), one message tagged live-status
    is sent, titled 获取直播间状态失败, whose body holds the error text and
    the code, and the source with its live table is left as it was. *)
Theorem upstream_error_is_reported now id body b pool :
  liveInfoPool_ok pool ->
  body <> "" ->
  let code := gjson.Int (gjson.Get (gjson.Parse body) "code") in
  code <> 0 \/ gjson.Exists (live_room body) = false ->
  exists pool' author msg code',
    BiliLiveSource_Send_id now id (Body (Some body)) (b, pool) =
      ((b, pool'),
       [{| push.Times := now; push.Flag := BiliLiveMsg; push.Author := author;
           push.Title := "获取直播间状态失败";
           push.Text := "[error] " +:+ msg +:+ ", code=" +:+ itoa code';
           push.Img := []; push.Src := "" |}]) /\
    liveInfoPool_ok pool' /\
    (if decide (code = 0)
     then code' = 400 /\ msg = "响应体中无live_room字段"
     else code' = code /\ msg = gjson.String (gjson.Get (gjson.Parse body) "msg")).
Proof.
  intros Hpool Hbody code Herr.
  destruct (decide (code = 0)) as [Hcode|Hcode].
  - destruct Herr as [Hne|Hroom]; [done|].
    eexists _, _, _, _. rewrite Send_id_no_live_room by done.
    split; [reflexivity|]. split; [by apply liveInfoPool_recycled|done].
  - eexists _, _, _, _. rewrite Send_id_upstream_error by done.
    split; [reflexivity|]. split; [by apply liveInfoPool_recycled|done].
Qed.

End StatusPoller.

(** Scenario A: account 42 has no entry; the poll reports live with title
    hello, cover c.jpg and room 100. *)
Lemma live_transition_scenario_A :
  exists pool',
    BiliLiveSource_Send_id (parser := Scenario.scenario_A) 1000 42 (Body (Some "A"))
      (NewBiliLiveSource [42], []) =
      ((BiliLiveSource.mk [42] (<[42 := true]> ∅), pool'),
       [went_live_msg 1000 "up" "hello" "c.jpg" 100]) /\
    liveInfoPool_ok pool'.
Proof.
  apply (live_transition_sends_one_message (parser := Scenario.scenario_A)
           1000 42 "A" (NewBiliLiveSource [42]) [] true).
  - constructor.
  - split; [discriminate|]. vm_compute. auto.
  - reflexivity.
Defined.

(** Scenario B: polling account 42 again with the same report. *)
Lemma unchanged_status_scenario_B :
  exists pool',
    BiliLiveSource_Send_id (parser := Scenario.scenario_A) 1010 42 (Body (Some "A"))
      (BiliLiveSource.mk [42] (<[42 := true]> ∅), [LiveInfo.new]) =
      ((BiliLiveSource.mk [42] (<[42 := true]> ∅), pool'), []) /\
    liveInfoPool_ok pool'.
Proof.
  apply (unchanged_status_sends_nothing (parser := Scenario.scenario_A)
           1010 42 "A" (BiliLiveSource.mk [42] (<[42 := true]> ∅)) [LiveInfo.new] true).
  - repeat constructor.
  - split; [discriminate|]. vm_compute. auto.
  - reflexivity.
Defined.

(** An upstream refusal with code -400. *)
Lemma upstream_error_example :
  exists pool' author msg code',
    BiliLiveSource_Send_id (parser := Scenario.errors) 1000 42 (Body (Some "denied"))
      (NewBiliLiveSource [42], []) =
      ((NewBiliLiveSource [42], pool'),
       [{| push.Times := 1000; push.Flag := BiliLiveMsg; push.Author := author;
           push.Title := "获取直播间状态失败";
           push.Text := "[error] " +:+ msg +:+ ", code=" +:+ itoa code';
           push.Img := []; push.Src := "" |}]) /\
    liveInfoPool_ok pool' /\
    code' = -400 /\ msg = "request error".
Proof.
  apply (upstream_error_is_reported (parser := Scenario.errors)
           1000 42 "denied" (NewBiliLiveSource [42]) []).
  - constructor.
  - discriminate.
  - left. vm_compute. discriminate.
Defined.

(** ** The item classifier *)

Ltac unfold_types :=
  unfold item_type, live_content, DynamicTypeWord, DynamicTypeDraw, DynamicTypeAV,
    DynamicTypeForward, DynamicTypeArticle, DynamicTypeMusic, DynamicTypePGC,
    DynamicTypeLive in *.

Section Classifier.
Context {parser : gjson.Parser}.

(** Induction along the recursion of [parseDynamic]. *)
Lemma parseDynamic_induction (P : gjson.Result -> Prop) :
  (forall item,
     (item_type item = DynamicTypeForward -> P (gjson.Get item "orig")) -> P item) ->
  forall item, P item.
Proof.
  intros Hstep item.
  remember (Result_size item) as n eqn:Hn.
  revert item Hn.
  induction n as [n IH] using lt_wf_ind.
  intros item ->. apply Hstep. intros Hfwd.
  apply (IH (Result_size (gjson.Get item "orig"))); [|reflexivity].
  by apply orig_size.
Qed.

(** [parseDynamic] answers nil exactly on the suppressed items, whatever
    the pool holds. *)
Lemma parseDynamic_None item pool :
  (parseDynamic item pool).1 = None <-> suppressed item.
Proof.
  revert pool. induction item as [item IH] using parseDynamic_induction.
  intros pool. rewrite parseDynamic_equation_1. cbv zeta.
  destruct (sync.Get DynamicInfo.new pool) as [info pool'].
  repeat case_decide;
    try (split; [discriminate|];
         by inversion 1; unfold_types; congruence).
  - specialize (IH ltac:(assumption) pool').
    destruct (parseDynamic (gjson.Get item "orig") pool') as [[o|] p]; simpl in *.
    + split; [discriminate|]. inversion 1; unfold_types; [congruence|].
      match goal with Hs : suppressed (gjson.Get _ _) |- _ => apply IH in Hs end.
      discriminate.
    + split; [|done]. intros _. apply suppressed_forward; [done|by apply IH].
  - split; [|done]. intros _. by apply suppressed_live.
Qed.

Lemma Reset_fixed d :
  DynamicInfo.Reset d = d ->
  d = DynamicInfo.mk "" "" "" [] "" "" (DynamicInfo.times d).
Proof. intros <-. reflexivity. Qed.

(** On a pool of reset records the answer is that of [classify], and the
    pool stays one of reset records. *)
Lemma parseDynamic_pool item :
  forall pool, dynInfoPool_ok pool ->
    (parseDynamic item pool).1 = classify item /\
    dynInfoPool_ok (parseDynamic item pool).2.
Proof.
  induction item as [item IH] using parseDynamic_induction.
  intros pool Hok. unfold classify.
  rewrite (parseDynamic_equation_1 _ item pool), (parseDynamic_equation_1 _ item []).
  cbv zeta.
  assert (Hnil : dynInfoPool_ok []) by constructor.
  destruct pool as [|d pool]; simpl sync.Get.
  - repeat case_decide; simpl; try done.
    destruct (IH ltac:(assumption) [] Hnil) as [_ IH2].
    destruct (parseDynamic (gjson.Get item "orig") []) as [[o|] p]; done.
  - inversion Hok as [|? ? Hd Hok']; subst.
    rewrite (Reset_fixed _ Hd). unfold DynamicInfo.new.
    repeat case_decide; simpl; try done.
    destruct (IH ltac:(assumption) _ Hok') as [IH1 IH2].
    destruct (IH ltac:(assumption) _ Hnil) as [_ IH4].
    unfold classify in IH1.
    destruct (parseDynamic (gjson.Get item "orig") pool) as [[o|] p];
      destruct (parseDynamic (gjson.Get item "orig") []) as [[o'|] p'];
      simpl in *; try done.
    by injection IH1 as ->.
Qed.

(** The image loop of an image post only extends the image list. *)
Lemma append_images (items : list gjson.Result) info :
  fold_left (fun info img_i =>
               DynamicInfo.set_img
                 (DynamicInfo.img info ++ [gjson.String (gjson.Get img_i "src")])%list
                 info) items info =
  DynamicInfo.set_img
    (DynamicInfo.img info ++ map (fun img_i => gjson.String (gjson.Get img_i "src")) items)%list
    info.
Proof.
  revert info. induction items as [|r items IH]; intros info; simpl.
  - rewrite app_nil_r. by destruct info.
  - rewrite IH. simpl. by rewrite <- app_assoc.
Qed.

(** The answer for a repost, from the answer for its original. *)
Lemma classify_forward item :
  item_type item = DynamicTypeForward ->
  classify item =
    match classify (gjson.Get item "orig") with
    | None => None
    | Some origInfo =>
        let text :=
          gjson.String (gjson.Get (gjson.Get item "modules.module_dynamic") "desc.text") in
        Some
          {| DynamicInfo.types :=
               if decide (DynamicInfo.types origInfo = DynamicTypeLive)
               then "分享直播间" else "转发动态";
             DynamicInfo.id := gjson.String (gjson.Get item "id_str");
             DynamicInfo.text :=
               if decide (DynamicInfo.types origInfo = DynamicTypeLive)
               then text +:+ nl +:+ "分享" +:+ dquote +:+ DynamicInfo.author origInfo
                      +:+ dquote +:+ "的直播间" +:+ nl +:+ DynamicInfo.text origInfo
               else text +:+ " " +:+ nl +:+ "转发自：@" +:+ DynamicInfo.author origInfo
                      +:+ nl +:+ DynamicInfo.text origInfo;
             DynamicInfo.img := DynamicInfo.img origInfo;
             DynamicInfo.author :=
               gjson.String (gjson.Get (gjson.Get item "modules.module_author") "name");
             DynamicInfo.src := dynamicUrlPrefix +:+ gjson.String (gjson.Get item "id_str");
             DynamicInfo.times := pub_ts item |}
    end.
Proof.
  intros Hfwd. unfold classify at 1.
  rewrite parseDynamic_equation_1. cbv zeta. simpl sync.Get.
  unfold_types.
  repeat case_decide; try congruence.
  unfold classify.
  destruct (parseDynamic (gjson.Get item "orig") []) as [[o|] p]; simpl; [|done].
  by case_decide.
Qed.

(** The type tag of a record tells a live announcement and an episode
    share from everything else. *)
Lemma classify_types item info :
  classify item = Some info ->
  (DynamicInfo.types info = DynamicTypeLive <-> item_type item = DynamicTypeLive) /\
  (DynamicInfo.types info = "" <-> item_type item = DynamicTypePGC).
Proof.
  destruct (decide (item_type item = DynamicTypeForward)) as [Hfwd|Hfwd].
  - rewrite (classify_forward item Hfwd).
    destruct (classify (gjson.Get item "orig")) as [o|]; [|discriminate].
    intros [= <-]. simpl. unfold_types.
    case_decide; split; split; congruence.
  - unfold classify. rewrite parseDynamic_equation_1. cbv zeta. simpl sync.Get.
    unfold_types.
    repeat case_decide; try congruence; try rewrite append_images;
      intros [= <-]; simpl; split; split; congruence.
Qed.

End Classifier.

(** C6, as the code has it. [parseDynamic] answers nil in exactly two cases: a
    live announcement whose content string is empty, and a repost whose
    embedded original is itself answered with nil; every other item,
    whatever its type, gets a record, and an item of none of the known
    types gets the record with the fixed body 未处理的动态类型. Content
    that is not empty but that the parser finds nothing in does not
    suppress the item. *)
Theorem parseDynamic_suppresses_exactly {parser : gjson.Parser} item pool :
  ((parseDynamic item pool).1 = None <-> suppressed item) /\
  (item_type item ∉ known_types ->
   exists info,
     (parseDynamic item pool).1 = Some info /\
     DynamicInfo.types info = "发布动态" /\
     DynamicInfo.text info = "未处理的动态类型").
Proof.
  split; [apply parseDynamic_None|].
  intros Hunknown. rewrite parseDynamic_equation_1. cbv zeta.
  destruct (sync.Get DynamicInfo.new pool) as [info pool'].
  unfold known_types in Hunknown. unfold item_type in Hunknown.
  repeat case_decide;
    try (exfalso; apply Hunknown;
         match goal with Heq : _ = _ |- _ => rewrite Heq end; set_solver).
  eexists. simpl. done.
Qed.

(** As stated, with unparseable content suppressing a live announcement,
    C6 fails: a live announcement whose content is the text x, in which
    the parser finds no value, is classified. *)
Lemma unparseable_live_content_is_classified :
  ~ (forall (P : gjson.Parser) item pool,
       (parseDynamic item pool).1 = None <-> suppressed_or_unparseable item).
Proof.
  intros Hclaim.
  destruct (Hclaim Scenario.no_documents (Some Scenario.garbled_live) []) as [_ Hsup].
  assert (Hnone : (parseDynamic (parser := Scenario.no_documents)
                     (Some Scenario.garbled_live) []).1 = None).
  { apply Hsup. apply unparseable_live; [reflexivity|]. right. reflexivity. }
  vm_compute in Hnone. discriminate.
Qed.

(** C7. A repost whose embedded original classifies gets the body
    commentary, line feed, 分享"author"的直播间, line feed, original body
    when the original is a live announcement, and commentary, space, line
    feed, 转发自：@author, line feed, original body otherwise; its images
    are those of the original. *)
Theorem repost_body_and_images {parser : gjson.Parser} item pool origInfo :
  dynInfoPool_ok pool ->
  item_type item = DynamicTypeForward ->
  classify (gjson.Get item "orig") = Some origInfo ->
  exists info,
    (parseDynamic item pool).1 = Some info /\
    DynamicInfo.img info = DynamicInfo.img origInfo /\
    DynamicInfo.text info =
      let text :=
        gjson.String (gjson.Get (gjson.Get item "modules.module_dynamic") "desc.text") in
      if decide (item_type (gjson.Get item "orig") = DynamicTypeLive)
      then text +:+ nl +:+ "分享" +:+ dquote +:+ DynamicInfo.author origInfo
             +:+ dquote +:+ "的直播间" +:+ nl +:+ DynamicInfo.text origInfo
      else text +:+ " " +:+ nl +:+ "转发自：@" +:+ DynamicInfo.author origInfo
             +:+ nl +:+ DynamicInfo.text origInfo.
Proof.
  intros Hpool Hfwd Horig.
  destruct (parseDynamic_pool item pool Hpool) as [-> _].
  rewrite (classify_forward item Hfwd), Horig. cbv zeta.
  eexists. split; [reflexivity|]. simpl. split; [reflexivity|].
  destruct (classify_types _ _ Horig) as [Hlive _].
  repeat case_decide; tauto.
Qed.

(** Scenario D: the commentary check this out on Alice's plain post Hi. *)
Lemma repost_scenario_D :
  exists info,
    (parseDynamic (parser := Scenario.no_documents) (Some Scenario.scenario_D) []).1 = Some info /\
    DynamicInfo.img info = [] /\
    DynamicInfo.text info = "check this out " +:+ nl +:+ "转发自：@Alice" +:+ nl +:+ "Hi".
Proof.
  apply (repost_body_and_images (parser := Scenario.no_documents)
           (Some Scenario.scenario_D) []
           (DynamicInfo.mk "发布动态" "77" "Hi" [] "Alice" "https://t.bilibili.com/77" 3)).
  - constructor.
  - reflexivity.
  - reflexivity.
Defined.

(** ** The feed poller *)

Lemma max_Zmax a b : max a b = Z.max a b.
Proof. unfold max. destruct (Z.gtb_spec a b); lia. Qed.

Lemma fold_left_Zmax (ts : list Z) n :
  0 <= n -> fold_left Z.max ts n = Z.max n (foldr Z.max 0 ts).
Proof.
  revert n. induction ts as [|t ts IH]; intros n Hn; simpl; [lia|].
  rewrite IH by lia. lia.
Qed.

Lemma foldr_Zmax_nonneg (ts : list Z) : 0 <= foldr Z.max 0 ts.
Proof. induction ts; simpl; lia. Qed.

Section FeedPoller.
Context {parser : gjson.Parser}.

(** [newest] never decreases along the loop of [space], whatever the pool
    holds. *)
Lemma space_item_newest last acc item :
  acc.1.2 <= (space_item last acc item).1.2.
Proof.
  destruct acc as [[infos newest] pool]. unfold space_item.
  destruct (parseDynamic item pool) as [[info|] pool']; simpl; [|lia].
  case_decide; simpl; [lia|].
  rewrite max_Zmax. destruct (DynamicInfo.times info >? last); simpl; lia.
Qed.

Lemma space_items_newest last items acc :
  acc.1.2 <= (fold_left (space_item last) items acc).1.2.
Proof.
  revert acc. induction items as [|item items IH]; intros acc; simpl; [lia|].
  etrans; [apply (space_item_newest last acc item)|apply IH].
Qed.

Lemma lastTable_at_set_lastTable b k v k' :
  BiliDynamicSource.lastTable_at (BiliDynamicSource.set_lastTable k v b) k' =
  if decide (k = k') then v else BiliDynamicSource.lastTable_at b k'.
Proof.
  unfold BiliDynamicSource.lastTable_at, BiliDynamicSource.set_lastTable. simpl.
  rewrite lookup_insert. by case_decide.
Qed.

(** One call of [space] never lowers a watermark. *)
Lemma space_monotone id now resp b pool k :
  BiliDynamicSource.lastTable_at b k <=
  BiliDynamicSource.lastTable_at (space id now resp b pool).1.2 k.
Proof.
  unfold space. destruct resp as [err|body]; simpl; [lia|].
  destruct (checkResp body) as [result|err]; simpl; [|lia].
  destruct (checkBiliData result) as [[data code] msg].
  destruct (negb (code =? 0)); simpl; [lia|].
  set (last := if BiliDynamicSource.lastTable_at b id =? 0
               then to_int64 (now - interval)
               else BiliDynamicSource.lastTable_at b id).
  pose proof (space_items_newest last (gjson.Array (gjson.Get data "items")) ([], 0, pool))
    as Hnewest.
  destruct (fold_left (space_item last) (gjson.Array (gjson.Get data "items")) ([], 0, pool))
    as [[infos newest] pool'].
  simpl in *. rewrite lastTable_at_set_lastTable, max_Zmax.
  case_decide as Hk; [subst k|lia].
  subst last. destruct (Z.eqb_spec (BiliDynamicSource.lastTable_at b id) 0); lia.
Qed.

Lemma Send_id_table now id resp st :
  (BiliDynamicSource_Send_id now id resp st).1.1 = (space id now resp st.1 st.2).1.2.
Proof.
  destruct st as [b pool]. unfold BiliDynamicSource_Send_id. simpl.
  destruct (space id now resp b pool) as [[[infos|err] b'] pool']; simpl; [|done].
  by destruct (fold_left BiliDynamicSource_Send_info infos ([], pool')).
Qed.

(** C3. No poll of any account, failed or successful, with no items, with
    items already seen or with new ones, lowers the watermark of any
    account; nor does any sequence of polls. *)
Theorem watermark_never_decreases now polls st k :
  BiliDynamicSource.lastTable_at st.1 k <=
  BiliDynamicSource.lastTable_at (BiliDynamicSource_Send_ids now polls st).1.1 k.
Proof.
  revert st. induction polls as [|[id resp] polls IH]; intros st; simpl; [lia|].
  pose proof (space_monotone id now resp st.1 st.2 k) as Hstep.
  rewrite <- Send_id_table in Hstep.
  destruct (BiliDynamicSource_Send_id now id resp st) as [st' out].
  specialize (IH st').
  destruct (BiliDynamicSource_Send_ids now polls st') as [st'' out'].
  simpl in *. lia.
Qed.

End FeedPoller.

Section FeedBatch.
Context {parser : gjson.Parser}.

Lemma counted_cons item items :
  counted (item :: items) =
  match classify item with
  | Some info =>
      if decide (DynamicInfo.types info = DynamicTypeLive) then counted items
      else info :: counted items
  | None => counted items
  end.
Proof.
  unfold counted. simpl. destruct (classify item) as [info|]; [|done].
  rewrite filter_cons. by repeat case_decide.
Qed.

(** One pass of the loop of [space] on a pool of reset records. *)
Lemma space_item_ok last infos newest pool item :
  dynInfoPool_ok pool ->
  exists pool',
    space_item last (infos, newest, pool) item =
      (match classify item with
       | Some info =>
           if decide (DynamicInfo.types info = DynamicTypeLive) then (infos, newest)
           else (if decide (last < DynamicInfo.times info)
                 then (infos ++ [info])%list else infos,
                 Z.max newest (DynamicInfo.times info))
       | None => (infos, newest)
       end, pool') /\
    dynInfoPool_ok pool'.
Proof.
  intros Hpool. unfold space_item.
  destruct (parseDynamic_pool item pool Hpool) as [Hfst Hsnd].
  destruct (parseDynamic item pool) as [o pool1]. simpl in Hfst, Hsnd. subst o.
  destruct (classify item) as [info|]; [|by eexists].
  case_decide; [by eexists|].
  rewrite max_Zmax.
  destruct (Z.gtb_spec (DynamicInfo.times info) last) as [Hnew|Hold];
    case_decide; try lia.
  - by eexists.
  - eexists. split; [reflexivity|]. by constructor.
Qed.

(** The whole loop: the records above [last] are collected in order, and
    [newest] runs over all the records counted. *)
Lemma space_items_ok last items :
  forall infos newest pool,
    dynInfoPool_ok pool ->
    exists pool',
      fold_left (space_item last) items (infos, newest, pool) =
        ((infos ++ filter (fun info => last < DynamicInfo.times info) (counted items))%list,
         fold_left Z.max (map DynamicInfo.times (counted items)) newest,
         pool') /\
      dynInfoPool_ok pool'.
Proof.
  induction items as [|item items IH]; intros infos newest pool Hpool.
  { exists pool. simpl. by rewrite app_nil_r. }
  change (fold_left (space_item last) (item :: items) (infos, newest, pool))
    with (fold_left (space_item last) items (space_item last (infos, newest, pool) item)).
  destruct (space_item_ok last infos newest pool item Hpool) as (pool1 & -> & Hpool1).
  rewrite counted_cons.
  destruct (classify item) as [info|]; [|by apply IH].
  case_decide; [by apply IH|].
  rewrite filter_cons.
  case_decide.
  - destruct (IH (infos ++ [info])%list (Z.max newest (DynamicInfo.times info)) pool1 Hpool1)
      as (pool' & -> & Hpool').
    exists pool'. split; [|done]. by rewrite <- app_assoc.
  - by apply IH.
Qed.

(** A successful poll, in full. *)
Lemma space_feed_ok id now body b pool :
  dynInfoPool_ok pool -> feed_ok body ->
  exists pool',
    space id now (Body (Some body)) b pool =
      (inl (filter (fun info => watermark_floor b id now < DynamicInfo.times info)
              (counted (feed_items body))),
       BiliDynamicSource.set_lastTable id
         (Z.max (watermark_floor b id now) (newest_of (counted (feed_items body)))) b,
       pool') /\
    dynInfoPool_ok pool'.
Proof.
  intros Hpool [Hbody Hcode]. unfold space.
  rewrite (checkResp_body _ Hbody). unfold checkBiliData. rewrite Hcode. simpl.
  fold (feed_items body). fold (watermark_floor b id now).
  destruct (space_items_ok (watermark_floor b id now) (feed_items body) [] 0 pool Hpool)
    as (pool' & -> & Hpool').
  exists pool'. split; [|done].
  rewrite max_Zmax, fold_left_Zmax by lia.
  unfold newest_of.
  pose proof (foldr_Zmax_nonneg (map DynamicInfo.times (counted (feed_items body)))).
  do 2 f_equal. f_equal. lia.
Qed.

(** Any other response makes [space] return an error and change nothing. *)
Lemma feed_response_cases resp :
  (exists body, resp = Body (Some body) /\ feed_ok body) \/
  (exists err, forall id now b pool, space id now resp b pool = (inr err, b, pool)).
Proof.
  destruct resp as [err|[body|]].
  - right. by eexists.
  - destruct (decide (body = "")) as [->|Hbody]; [right; by eexists|].
    destruct (decide (gjson.Int (gjson.Get (gjson.Parse body) "code") = 0)) as [Hcode|Hcode].
    + left. by exists body.
    + right. eexists. intros id now b pool. unfold space.
      rewrite (checkResp_body _ Hbody). unfold checkBiliData.
      destruct (Z.eqb_spec (gjson.Int (gjson.Get (gjson.Parse body) "code")) 0); [done|].
      simpl.
      destruct (Z.eqb_spec (gjson.Int (gjson.Get (gjson.Parse body) "code")) 0); [done|].
      reflexivity.
  - right. by eexists.
Qed.

(** Sending the records: one message each, in order, and every record goes
    back to the pool reset. *)
Lemma Send_infos infos :
  forall out pool,
    dynInfoPool_ok pool ->
    exists pool',
      fold_left BiliDynamicSource_Send_info infos (out, pool) =
        ((out ++ map BiliDynamicSource_msg infos)%list, pool') /\
      dynInfoPool_ok pool'.
Proof.
  induction infos as [|info infos IH]; intros out pool Hpool; simpl.
  { exists pool. by rewrite app_nil_r. }
  destruct (IH (out ++ [BiliDynamicSource_msg info])%list
              (sync.Put (DynamicInfo.Reset info) pool)) as (pool' & -> & Hpool').
  { by constructor. }
  exists pool'. by rewrite <- app_assoc.
Qed.

(** One iteration of the feed poller on a successful poll. *)
Lemma Send_id_feed_ok now id body b pool :
  dynInfoPool_ok pool -> feed_ok body ->
  exists pool',
    BiliDynamicSource_Send_id now id (Body (Some body)) (b, pool) =
      ((BiliDynamicSource.set_lastTable id
          (Z.max (watermark_floor b id now) (newest_of (counted (feed_items body)))) b,
        pool'),
       map BiliDynamicSource_msg
         (filter (fun info => watermark_floor b id now < DynamicInfo.times info)
            (counted (feed_items body)))) /\
    dynInfoPool_ok pool'.
Proof.
  intros Hpool Hfeed. unfold BiliDynamicSource_Send_id.
  destruct (space_feed_ok id now body b pool Hpool Hfeed) as (pool1 & -> & Hpool1).
  destruct (Send_infos
              (filter (fun info => watermark_floor b id now < DynamicInfo.times info)
                 (counted (feed_items body))) [] pool1 Hpool1) as (pool' & -> & Hpool').
  by exists pool'.
Qed.

(** The pool invariant is kept by every iteration and every sequence. *)
Lemma Send_id_dynInfoPool_ok now id resp st :
  dynInfoPool_ok st.2 ->
  dynInfoPool_ok (BiliDynamicSource_Send_id now id resp st).1.2.
Proof.
  destruct st as [b pool]. intros Hpool. simpl in Hpool.
  destruct (feed_response_cases resp) as [(body & -> & Hfeed)|[err Herr]].
  - by destruct (Send_id_feed_ok now id body b pool Hpool Hfeed) as (pool' & -> & Hpool').
  - unfold BiliDynamicSource_Send_id. by rewrite Herr.
Qed.

Lemma Send_ids_dynInfoPool_ok now polls st :
  dynInfoPool_ok st.2 ->
  dynInfoPool_ok (BiliDynamicSource_Send_ids now polls st).1.2.
Proof.
  revert st. induction polls as [|[id resp] polls IH]; intros st Hpool; [done|].
  simpl. pose proof (Send_id_dynInfoPool_ok now id resp st Hpool) as Hpool'.
  destruct (BiliDynamicSource_Send_id now id resp st) as [st' out].
  specialize (IH st' Hpool').
  by destruct (BiliDynamicSource_Send_ids now polls st') as [st'' out'].
Qed.

End FeedBatch.

(** C4, as the code has it. After a successful feed poll of an account its
    watermark is the greatest of the watermark the poll compared against
    (the stored one, or now minus the interval while none is stored), the
    publish times of the records counted in the tick (every item that
    classifies, top-level live announcements left out, whether the record
    is returned or discarded as not above the watermark) and zero; the
    other accounts keep theirs. When the poll returns no items a stored
    positive watermark is left unchanged. *)
Theorem watermark_after_poll {parser : gjson.Parser} id now body b pool :
  dynInfoPool_ok pool ->
  feed_ok body ->
  let items := feed_items body in
  let floor := watermark_floor b id now in
  exists infos b' pool',
    space id now (Body (Some body)) b pool = (inl infos, b', pool') /\
    infos = filter (fun info => floor < DynamicInfo.times info) (counted items) /\
    BiliDynamicSource.lastTable_at b' id = Z.max floor (newest_of (counted items)) /\
    (forall k, k <> id ->
       BiliDynamicSource.lastTable_at b' k = BiliDynamicSource.lastTable_at b k) /\
    (items = [] -> 0 < BiliDynamicSource.lastTable_at b id ->
       BiliDynamicSource.lastTable_at b' id = BiliDynamicSource.lastTable_at b id).
Proof.
  intros Hpool Hfeed items floor.
  destruct (space_feed_ok id now body b pool Hpool Hfeed) as (pool' & -> & Hpool').
  eexists _, _, _. split; [reflexivity|]. split; [reflexivity|].
  rewrite lastTable_at_set_lastTable. split; [by case_decide|].
  split.
  - intros k Hk. rewrite lastTable_at_set_lastTable. by case_decide.
  - intros Hitems Hstored. subst items floor. rewrite Hitems.
    unfold watermark_floor, newest_of, counted. simpl.
    case_decide; [|done].
    destruct (Z.eqb_spec (BiliDynamicSource.lastTable_at b id) 0); lia.
Qed.

(** A successful poll of account 7, stored watermark 100, that returns no
    items. *)
Lemma watermark_after_empty_poll :
  exists infos b' pool',
    space (parser := Scenario.empty_feed) 7 1000 (Body (Some "none"))
      (BiliDynamicSource.mk [7] (<[7 := 100]> ∅)) [] = (inl infos, b', pool') /\
    infos = [] /\
    BiliDynamicSource.lastTable_at b' 7 = 100.
Proof.
  destruct (watermark_after_poll (parser := Scenario.empty_feed) 7 1000 "none"
              (BiliDynamicSource.mk [7] (<[7 := 100]> ∅)) [])
    as (infos & b' & pool' & Hspace & Hinfos & Hmark & _).
  - constructor.
  - split; [discriminate|reflexivity].
  - exists infos, b', pool'. split; [exact Hspace|]. split; [exact Hinfos|exact Hmark].
Defined.

(** As stated, C4 fails: with watermark 100 stored for account 7, a poll
    that returns one post published at 50 leaves the watermark at 100,
    which is not the greatest publish time of the batch. *)
Lemma stale_batch_keeps_watermark :
  ~ (forall (P : gjson.Parser) id now body b pool,
       dynInfoPool_ok pool -> feed_ok body ->
       let b' := (space id now (Body (Some body)) b pool).1.2 in
       (feed_items body <> [] ->
          is_max (BiliDynamicSource.lastTable_at b' id) (map pub_ts (feed_items body))) /\
       (feed_items body = [] ->
          BiliDynamicSource.lastTable_at b' id = BiliDynamicSource.lastTable_at b id)).
Proof.
  intros Hclaim.
  destruct (Hclaim Scenario.stale 7 1000 "stale"
              (BiliDynamicSource.mk [7] (<[7 := 100]> ∅)) []) as [Hmax _].
  - constructor.
  - split; [discriminate|reflexivity].
  - destruct Hmax as [Hin _]; [discriminate|].
    vm_compute in Hin. apply list_elem_of_singleton in Hin. discriminate.
Qed.

(** C5, as the code has it. On the first feed poll of an account, at time T with
    interval 10, the watermark compared against is T-10; of a batch of
    three records published at T-5, T-20000 and T-1, the first and the
    third are sent, in that order, the second is discarded, and the
    watermark of the account is T-1 afterwards. *)
Theorem first_poll_sends_items_above_floor {parser : gjson.Parser}
    T id body b pool i1 i2 i3 r1 r2 r3 :
  dynInfoPool_ok pool ->
  1 <= T < 2 ^ 63 ->
  BiliDynamicSource.lastTable b !! id = None ->
  feed_ok body ->
  feed_items body = [i1; i2; i3] ->
  classify i1 = Some r1 -> classify i2 = Some r2 -> classify i3 = Some r3 ->
  DynamicInfo.types r1 <> DynamicTypeLive ->
  DynamicInfo.types r2 <> DynamicTypeLive ->
  DynamicInfo.types r3 <> DynamicTypeLive ->
  DynamicInfo.times r1 = T - 5 ->
  DynamicInfo.times r2 = T - 20000 ->
  DynamicInfo.times r3 = T - 1 ->
  watermark_floor b id T = T - interval /\
  exists st',
    BiliDynamicSource_Send_id T id (Body (Some body)) (b, pool) =
      (st', [BiliDynamicSource_msg r1; BiliDynamicSource_msg r3]) /\
    BiliDynamicSource.lastTable_at st'.1 id = T - 1.
Proof.
  intros Hpool HT Hfirst Hfeed Hitems H1 H2 H3 Hl1 Hl2 Hl3 Ht1 Ht2 Ht3.
  assert (Hfloor : watermark_floor b id T = T - interval).
  { unfold watermark_floor, BiliDynamicSource.lastTable_at. rewrite Hfirst. simpl.
    unfold to_int64, interval. rewrite Z.mod_small; lia. }
  split; [done|].
  destruct (Send_id_feed_ok T id body b pool Hpool Hfeed) as (pool' & -> & _).
  rewrite Hitems, Hfloor.
  assert (Hcounted : counted [i1; i2; i3] = [r1; r2; r3]).
  { rewrite !counted_cons, H1, H2, H3. by repeat case_decide. }
  rewrite Hcounted. eexists. split.
  - rewrite !filter_cons, filter_nil. unfold interval.
    repeat case_decide; try lia. reflexivity.
  - simpl. rewrite lastTable_at_set_lastTable. case_decide; [|done].
    unfold newest_of, interval. simpl. lia.
Qed.

(** Scenario C at T = 100000, account 7, three plain posts. *)
Lemma first_poll_scenario_C :
  exists st',
    BiliDynamicSource_Send_id (parser := Scenario.scenario_C) 100000 7 (Body (Some "C"))
      (NewBiliDynamicSource [7], []) =
      (st',
       [push.mkMsg 99995 BiliDynMsg "up" "发布动态" "a" [] "https://t.bilibili.com/77";
        push.mkMsg 99999 BiliDynMsg "up" "发布动态" "c" [] "https://t.bilibili.com/77"]) /\
    BiliDynamicSource.lastTable_at st'.1 7 = 99999.
Proof.
  eapply (first_poll_sends_items_above_floor (parser := Scenario.scenario_C)
            100000 7 "C" (NewBiliDynamicSource [7]) []
            _ _ _
            (DynamicInfo.mk "发布动态" "77" "a" [] "up" "https://t.bilibili.com/77" 99995)
            (DynamicInfo.mk "发布动态" "77" "b" [] "up" "https://t.bilibili.com/77" 80000)
            (DynamicInfo.mk "发布动态" "77" "c" [] "up" "https://t.bilibili.com/77" 99999)).
  - constructor.
  - lia.
  - reflexivity.
  - split; [discriminate|reflexivity].
  - reflexivity.
  - reflexivity.
  - reflexivity.
  - reflexivity.
  - discriminate.
  - discriminate.
  - discriminate.
  - reflexivity.
  - reflexivity.
  - reflexivity.
Defined.

(** As stated, C5 fails: in Scenario C the post published at T-5 is sent
    as well, so the messages are not the one of T-1 alone. *)
Lemma scenario_C_sends_two_messages :
  ~ (forall st' out,
       BiliDynamicSource_Send_id (parser := Scenario.scenario_C) 100000 7 (Body (Some "C"))
         (NewBiliDynamicSource [7], []) = (st', out) ->
       map push.Times out = [100000 - 1] /\
       BiliDynamicSource.lastTable_at st'.1 7 = 100000 - 1).
Proof.
  intros Hclaim.
  edestruct Hclaim as [Htimes _]; [vm_compute; reflexivity|].
  vm_compute in Htimes. discriminate.
Qed.

(** The record of an episode share: no type tag is assigned. *)
Lemma classify_pgc {parser : gjson.Parser} item :
  item_type item = DynamicTypePGC ->
  classify item =
    Some {| DynamicInfo.types := "";
            DynamicInfo.id := gjson.String (gjson.Get item "id_str");
            DynamicInfo.text :=
              gjson.String
                (gjson.Get (gjson.Get (gjson.Get item "modules.module_dynamic") "major.pgc")
                   "title");
            DynamicInfo.img :=
              [gjson.String
                 (gjson.Get (gjson.Get (gjson.Get item "modules.module_dynamic") "major.pgc")
                    "cover")];
            DynamicInfo.author :=
              gjson.String (gjson.Get (gjson.Get item "modules.module_author") "name");
            DynamicInfo.src := dynamicUrlPrefix +:+ gjson.String (gjson.Get item "id_str");
            DynamicInfo.times := pub_ts item |}.
Proof.
  intros Hpgc. unfold classify. rewrite parseDynamic_equation_1. cbv zeta. simpl sync.Get.
  unfold_types. repeat case_decide; try congruence. reflexivity.
Qed.

(** C10. An episode share (type DYNAMIC_TYPE_PGC) always classifies, and
    its record has the empty type tag: the branch assigns none, and a
    record taken from the pool has been reset, an invariant that holds of
    the empty pool and is kept by every poll. No other record has an empty
    tag. The message sent for the record therefore has an empty title. *)
Theorem episode_share_has_empty_title {parser : gjson.Parser} item pool :
  dynInfoPool_ok pool ->
  item_type item = DynamicTypePGC ->
  (exists info,
     (parseDynamic item pool).1 = Some info /\
     DynamicInfo.types info = "" /\
     push.Title (BiliDynamicSource_msg info) = "" /\
     push.Flag (BiliDynamicSource_msg info) = BiliDynMsg) /\
  (forall item' info',
     (parseDynamic item' pool).1 = Some info' ->
     DynamicInfo.types info' = "" -> item_type item' = DynamicTypePGC) /\
  (forall id now body b,
     feed_ok body -> feed_items body = [item] ->
     watermark_floor b id now < pub_ts item ->
     exists st' msg,
       BiliDynamicSource_Send_id now id (Body (Some body)) (b, pool) = (st', [msg]) /\
       push.Title msg = "" /\ push.Flag msg = BiliDynMsg) /\
  (forall now polls b,
     dynInfoPool_ok (BiliDynamicSource_Send_ids now polls (b, pool)).1.2).
Proof.
  intros Hpool Hpgc. repeat split.
  - destruct (parseDynamic_pool item pool Hpool) as [-> _].
    rewrite (classify_pgc item Hpgc). by eexists.
  - intros item' info' Hinfo' Htag.
    destruct (parseDynamic_pool item' pool Hpool) as [Hcls _].
    rewrite Hcls in Hinfo'. by apply (classify_types item' info' Hinfo').
  - intros id now body b Hfeed Hitems Hnew.
    destruct (Send_id_feed_ok now id body b pool Hpool Hfeed) as (pool' & -> & _).
    rewrite Hitems, counted_cons, (classify_pgc item Hpgc).
    case_decide; [discriminate|].
    rewrite filter_cons. simpl. case_decide; [|done].
    by eexists _, _.
  - intros now polls b. by apply Send_ids_dynInfoPool_ok.
Qed.

(** An episode share taken with an empty pool. *)
Lemma episode_share_example :
  exists info,
    (parseDynamic (parser := Scenario.no_documents) (Some Scenario.episode) []).1 = Some info /\
    DynamicInfo.types info = "" /\
    push.Title (BiliDynamicSource_msg info) = "" /\
    push.Flag (BiliDynamicSource_msg info) = BiliDynMsg.
Proof.
  apply (episode_share_has_empty_title (parser := Scenario.no_documents)
           (Some Scenario.episode) []).
  - constructor.
  - reflexivity.
Defined.

(** ** The orchestrator *)

Section Orchestrator.
Variable b : Bot.t.

Lemma pending_for_app i gs gs' :
  Bot.pending_for i (gs ++ gs') = (Bot.pending_for i gs ++ Bot.pending_for i gs')%list.
Proof. unfold Bot.pending_for. apply omap_app. Qed.

(** Receiving a message starts one delivery for every registered sink. *)
Lemma pending_for_spawn_from (sinks : list Sink.t) msg i n :
  Bot.pending_for i (imap (fun j s => ((n + j)%nat, s, msg)) sinks) =
  if decide (n <= i < n + length sinks)%nat then [msg] else [].
Proof.
  revert n. induction sinks as [|s sinks IH]; intros n.
  { simpl. case_decide; [lia|done]. }
  rewrite imap_cons. unfold Bot.pending_for in *. simpl omap.
  rewrite (imap_ext _ (fun j s => ((S n + j)%nat, s, msg))).
  2:{ intros j x _. simpl. do 2 f_equal. lia. }
  rewrite IH. simpl length.
  repeat case_decide; simpl in *; try lia; done.
Qed.

Lemma pending_for_spawn msg i :
  (i < length (Bot.sinks b))%nat ->
  Bot.pending_for i (imap (fun j s => (j, s, msg)) (Bot.sinks b)) = [msg].
Proof.
  intros Hi.
  pose proof (pending_for_spawn_from (Bot.sinks b) msg i 0) as Hspawn.
  simpl in Hspawn. rewrite Hspawn. case_decide; [done|lia].
Qed.

(** Running a goroutine takes its message, and only that, off the list of
    those pending. *)
Lemma pending_for_delete i gs k g :
  gs !! k = Some g ->
  Bot.pending_for i gs ≡ₚ
    ((if decide (g.1.1 = i) then [g.2] else []) ++ Bot.pending_for i (delete k gs))%list.
Proof.
  intros Hk. unfold Bot.pending_for.
  rewrite (delete_Permutation gs k g Hk) at 1. simpl.
  by case_decide.
Qed.

Lemma step_conserved e st st' deq :
  Bot.step b e st = Some st' ->
  Bot.conserved b deq st ->
  Bot.conserved b (deq ++ Bot.dequeued [e]) st'.
Proof.
  intros Hstep Hinv i Hi. specialize (Hinv i Hi).
  destruct e as [|msg|k]; simpl in Hstep.
  - destruct (Bot.returned st); [discriminate|]. injection Hstep as <-.
    simpl. by rewrite app_nil_r.
  - destruct (Bot.returned st); [discriminate|]. injection Hstep as <-.
    simpl. unfold Bot.received_by. simpl.
    rewrite pending_for_app, pending_for_spawn by done.
    rewrite Hinv. unfold Bot.received_by. by rewrite app_assoc.
  - destruct (Bot.goroutines st !! k) as [[[j s] msg]|] eqn:Hk; [|discriminate].
    injection Hstep as <-. simpl. rewrite app_nil_r.
    rewrite Hinv, (pending_for_delete i _ k _ Hk).
    unfold Bot.received_by. simpl. rewrite omap_app. simpl.
    case_decide; simpl; [|by rewrite app_nil_r].
    by rewrite <- app_assoc.
Qed.

Lemma dequeued_cons e evs :
  Bot.dequeued (e :: evs) = (Bot.dequeued [e] ++ Bot.dequeued evs)%list.
Proof. unfold Bot.dequeued. simpl. by destruct e. Qed.

Lemma run_conserved evs :
  forall st st' deq,
    Bot.run b evs st = Some st' ->
    Bot.conserved b deq st ->
    Bot.conserved b (deq ++ Bot.dequeued evs) st'.
Proof.
  induction evs as [|e evs IH]; intros st st' deq Hrun Hinv.
  - injection Hrun as <-. simpl. by rewrite app_nil_r.
  - simpl in Hrun. destruct (Bot.step b e st) as [st1|] eqn:Hstep; [|discriminate].
    rewrite dequeued_cons, app_assoc.
    eapply IH; [done|]. by eapply step_conserved.
Qed.

(** The loop returns on [ctx.Done()] and on nothing else. *)
Lemma step_returned e st st' :
  Bot.step b e st = Some st' ->
  Bot.returned st' = true <-> Bot.returned st = true \/ e = Bot.Done.
Proof.
  destruct e as [|msg|k]; simpl.
  - destruct (Bot.returned st); [discriminate|]. intros [= <-]. simpl. intuition congruence.
  - destruct (Bot.returned st); [discriminate|]. intros [= <-]. simpl. intuition congruence.
  - destruct (Bot.goroutines st !! k) as [[[j s] msg]|]; [|discriminate].
    intros [= <-]. simpl. intuition congruence.
Qed.

Lemma run_returned evs :
  forall st st',
    Bot.run b evs st = Some st' ->
    Bot.returned st' = true <-> Bot.returned st = true \/ Bot.Done ∈ evs.
Proof.
  induction evs as [|e evs IH]; intros st st' Hrun.
  - injection Hrun as <-. rewrite elem_of_nil. tauto.
  - simpl in Hrun. destruct (Bot.step b e st) as [st1|] eqn:Hstep; [|discriminate].
    rewrite (IH _ _ Hrun), (step_returned _ _ _ Hstep), elem_of_cons.
    intuition congruence.
Qed.

(** A pending delivery can always run, and running it touches neither the
    loop nor the other deliveries, whatever the sink answers. *)
Lemma Sched_enabled st k :
  (k < length (Bot.goroutines st))%nat ->
  exists st',
    Bot.step b (Bot.Sched k) st = Some st' /\
    Bot.returned st' = Bot.returned st /\
    Bot.goroutines st' = delete k (Bot.goroutines st).
Proof.
  intros Hk. destruct (lookup_lt_is_Some_2 _ _ Hk) as [[[j s] msg] Hg].
  simpl. rewrite Hg. by eexists.
Qed.

End Orchestrator.

(** C9. Along every run of the dispatch loop: each message taken from the
    channel has, for every registered sink, a delivery of its own, which is
    either made or still pending, whatever the other deliveries returned;
    the loop has returned only if cancellation was taken; a pending
    delivery can always run, and running it leaves the loop and the other
    pending deliveries as they are; while the loop has not returned it
    takes any further message. So once no delivery is pending every sink
    has received every message, also next to a sink that always fails. *)
Theorem sink_errors_are_isolated b evs st :
  Bot.Run b evs = Some st ->
  (forall i, (i < length (Bot.sinks b))%nat ->
     Bot.dequeued evs ≡ₚ
       (Bot.received_by i st ++ Bot.pending_for i (Bot.goroutines st))%list) /\
  (Bot.returned st = true <-> Bot.Done ∈ evs) /\
  (forall k, (k < length (Bot.goroutines st))%nat ->
     exists st',
       Bot.step b (Bot.Sched k) st = Some st' /\
       Bot.returned st' = Bot.returned st /\
       Bot.goroutines st' = delete k (Bot.goroutines st)) /\
  (Bot.returned st = false -> forall msg, is_Some (Bot.step b (Bot.Recv msg) st)) /\
  (Bot.goroutines st = [] ->
   forall i, (i < length (Bot.sinks b))%nat -> Bot.received_by i st ≡ₚ Bot.dequeued evs).
Proof.
  intros Hrun. unfold Bot.Run in Hrun.
  assert (Hcons : Bot.conserved b (Bot.dequeued evs) st).
  { apply (run_conserved b evs Bot.start st [] Hrun). by intros i _. }
  repeat split.
  - exact Hcons.
  - intros Hret. apply (run_returned b evs _ _ Hrun) in Hret as [Hret|Hret]; [discriminate|done].
  - intros Hdone. apply (run_returned b evs _ _ Hrun). by right.
  - intros k Hk. by apply Sched_enabled.
  - intros Hret msg. simpl. rewrite Hret. by eexists.
  - intros Hquiet i Hi. specialize (Hcons i Hi).
    rewrite Hquiet in Hcons. simpl in Hcons. by rewrite app_nil_r in Hcons.
Qed.

(** Scenario E: two sinks, the first failing on every message; two
    messages, with the deliveries run in some order. *)
Lemma sink_errors_scenario_E :
  exists st,
    Bot.Run Scenario.two_sinks
      [Bot.Recv Scenario.m1; Bot.Sched 0; Bot.Recv Scenario.m2; Bot.Sched 0;
       Bot.Sched 1; Bot.Sched 0] = Some st /\
    Bot.stdout st = ["unreachable"; "unreachable"] /\
    Bot.returned st = false /\
    Bot.received_by 1 st ≡ₚ [Scenario.m1; Scenario.m2].
Proof.
  eexists. split; [vm_compute; reflexivity|].
  split; [reflexivity|]. split; [reflexivity|].
  refine (proj2 (proj2 (proj2 (proj2
            (sink_errors_are_isolated Scenario.two_sinks
               [Bot.Recv Scenario.m1; Bot.Sched 0; Bot.Recv Scenario.m2; Bot.Sched 0;
                Bot.Sched 1; Bot.Sched 0] _ _)))) _ 1%nat _).
  - vm_compute. reflexivity.
  - reflexivity.
  - vm_compute. lia.
Defined.

(** * Further properties *)

Set Warnings "-clear-no-such-hyp".

(** ** The status poller over several polls *)

Section StatusPollerRuns.
Context {parser : gjson.Parser}.

Lemma last_default_cons (cur live : bool) lives :
  default cur (last (live :: lives)) = default live (last lives).
Proof. rewrite last_cons. by destruct (last lives). Qed.

(** X1. Along any run of polls of one account, each a report with upstream
    code 0 or a failed fetch, the status poller sends exactly as many
    messages as the reported status changes, counted from the state the
    table held at the start, and the table ends on the last status
    reported. *)
Theorem one_message_per_change now id polls lives b pool :
  liveInfoPool_ok pool ->
  observes id polls lives ->
  length (BiliLiveSource_Send_ids now polls (b, pool)).2 =
    changes (BiliLiveSource.living_at b id) lives /\
  BiliLiveSource.living_at (BiliLiveSource_Send_ids now polls (b, pool)).1.1 id =
    default (BiliLiveSource.living_at b id) (last lives).
Proof.
  intros Hpool Hobs. revert b pool Hpool.
  induction Hobs as [|body live polls lives Hrep Hobs IH|resp polls lives Hfail Hobs IH];
    intros b pool Hpool.
  - done.
  - cbn [BiliLiveSource_Send_ids].
    rewrite (Send_id_reports now id body b pool live) by done.
    pose proof (liveInfoPool_recycled pool Hpool) as Hpool'.
    rewrite last_default_cons. cbn [changes].
    destruct (Bool.eqb live (BiliLiveSource.living_at b id)) eqn:Heq.
    + apply Bool.eqb_prop in Heq. subst live.
      specialize (IH b _ Hpool').
      destruct (BiliLiveSource_Send_ids now polls _) as [st out]. simpl in *. done.
    + specialize (IH (BiliLiveSource.set_living id live b) _ Hpool').
      rewrite living_at_set_living in IH. case_decide; [|done].
      destruct (BiliLiveSource_Send_ids now polls _) as [st out]. simpl in *.
      destruct IH as [-> ->]. done.
  - cbn [BiliLiveSource_Send_ids]. rewrite Send_id_failed by done.
    specialize (IH b pool Hpool).
    destruct (BiliLiveSource_Send_ids now polls (b, pool)) as [st out]. done.
Qed.

End StatusPollerRuns.

(** Account 42, unseen so far: live, live, offline, a failed fetch,
    offline, live: three messages. *)
Lemma one_message_per_change_example :
  length (BiliLiveSource_Send_ids (parser := Walkthrough.on_off) 1000
            [(42, Body (Some "A")); (42, Body (Some "A")); (42, Body (Some "off"));
             (42, Failed "timeout"); (42, Body (Some "off")); (42, Body (Some "A"))]
            (NewBiliLiveSource [42], [])).2 = 3%nat /\
  BiliLiveSource.living_at
    (BiliLiveSource_Send_ids (parser := Walkthrough.on_off) 1000
       [(42, Body (Some "A")); (42, Body (Some "A")); (42, Body (Some "off"));
        (42, Failed "timeout"); (42, Body (Some "off")); (42, Body (Some "A"))]
       (NewBiliLiveSource [42], [])).1.1 42 = true.
Proof.
  apply (one_message_per_change (parser := Walkthrough.on_off) 1000 42 _
           [true; true; false; false; true] (NewBiliLiveSource [42]) []).
  - constructor.
  - assert (Hon : reports (parser := Walkthrough.on_off) "A" true)
      by (split; [discriminate|vm_compute; auto]).
    assert (Hoff : reports (parser := Walkthrough.on_off) "off" false)
      by (split; [discriminate|vm_compute; auto]).
    repeat (first [apply observes_report; [assumption|]
                  |apply observes_failed; [exact I|]
                  |apply observes_nil]).
Defined.

Section StatusPollerTicks.
Context {parser : gjson.Parser}.

(** One iteration on a response that reports offline or fails, for an
    account the table holds as offline. *)
Lemma Send_id_offline now id resp b pool :
  liveInfoPool_ok pool ->
  offline_or_failed resp ->
  BiliLiveSource.living_at b id = false ->
  exists pool',
    BiliLiveSource_Send_id now id resp (b, pool) = ((b, pool'), []) /\
    liveInfoPool_ok pool'.
Proof.
  intros Hpool [Hfail|(body & -> & Hrep)] Hoff.
  - exists pool. by rewrite Send_id_failed.
  - eexists. rewrite (Send_id_reports now id body b pool false) by done.
    rewrite Hoff. simpl. split; [reflexivity|]. by apply liveInfoPool_recycled.
Qed.

Lemma Send_ids_offline now polls b pool :
  liveInfoPool_ok pool ->
  Forall (fun p => offline_or_failed p.2) polls ->
  (forall k, BiliLiveSource.living_at b k = false) ->
  exists pool',
    BiliLiveSource_Send_ids now polls (b, pool) = ((b, pool'), []) /\
    liveInfoPool_ok pool'.
Proof.
  intros Hpool Hpolls Hoff. revert pool Hpool.
  induction Hpolls as [|[id resp] polls Hresp Hpolls IH]; intros pool Hpool.
  - by exists pool.
  - cbn [BiliLiveSource_Send_ids].
    destruct (Send_id_offline now id resp b pool Hpool Hresp (Hoff id)) as (pool1 & -> & Hpool1).
    destruct (IH pool1 Hpool1) as (pool' & -> & Hpool').
    by exists pool'.
Qed.

(** X2. The first tick of a freshly built status poller sends nothing and
    leaves the table empty when every tracked account is reported offline
    or cannot be fetched: there is no message on start-up for accounts that
    are not live. *)
Theorem first_tick_offline_is_silent now uid fetch :
  Forall offline_or_failed fetch ->
  exists pool',
    BiliLiveSource_Send_tick now fetch (NewBiliLiveSource uid, []) =
      ((NewBiliLiveSource uid, pool'), []) /\
    liveInfoPool_ok pool'.
Proof.
  intros Hfetch. unfold BiliLiveSource_Send_tick.
  apply Send_ids_offline.
  - constructor.
  - apply Forall_forall. intros [id resp] Hin. simpl.
    apply elem_of_zip_r in Hin. by eapply Forall_forall in Hfetch.
  - intros k. reflexivity.
Qed.

(** One iteration sends at most one message, keeps the tracked accounts,
    and writes the table at most at the polled account. *)
Lemma Send_id_bounds now id resp b pool :
  liveInfoPool_ok pool ->
  let r := BiliLiveSource_Send_id now id resp (b, pool) in
  (length r.2 <= 1)%nat /\
  BiliLiveSource.uid r.1.1 = BiliLiveSource.uid b /\
  dom (BiliLiveSource.living r.1.1) ⊆ dom (BiliLiveSource.living b) ∪ {[id]} /\
  liveInfoPool_ok r.1.2 /\
  (length r.1.2 <= Nat.max 1 (length pool))%nat.
Proof.
  intros Hpool.
  assert (Hlen : (length (sync.Put LiveInfo.new (sync.Get LiveInfo.new pool).2)
                  <= Nat.max 1 (length pool))%nat).
  { destruct pool; simpl; lia. }
  pose proof (liveInfoPool_recycled pool Hpool) as Hpool'.
  destruct (response_cases resp)
    as [Hfail|(body & -> & Hbody & [Hcode|[[Hcode Hroom]|[live Hrep]]])].
  - rewrite Send_id_failed by done. simpl. repeat split; try done; [lia|set_solver|lia].
  - rewrite Send_id_upstream_error by done. simpl. repeat split; try done. set_solver.
  - rewrite Send_id_no_live_room by done. simpl. repeat split; try done. set_solver.
  - rewrite (Send_id_reports now id body b pool live) by done.
    destruct (Bool.eqb live (BiliLiveSource.living_at b id)); simpl;
      repeat split; try done; try lia; [set_solver|].
    rewrite dom_insert. set_solver.
Qed.

(** X3. Over any sequence of polls the status poller sends at most one
    message per poll, never changes its list of tracked accounts, and
    creates table entries for polled accounts only. *)
Theorem status_poller_bounds now polls b pool :
  liveInfoPool_ok pool ->
  let r := BiliLiveSource_Send_ids now polls (b, pool) in
  (length r.2 <= length polls)%nat /\
  BiliLiveSource.uid r.1.1 = BiliLiveSource.uid b /\
  dom (BiliLiveSource.living r.1.1) ⊆ dom (BiliLiveSource.living b) ∪ list_to_set polls.*1.
Proof.
  revert b pool. induction polls as [|[id resp] polls IH]; intros b pool Hpool.
  { simpl. repeat split; try done. set_solver. }
  cbn [BiliLiveSource_Send_ids].
  destruct (Send_id_bounds now id resp b pool Hpool) as (Hlen & Huid & Hdom & Hpool1 & _).
  destruct (BiliLiveSource_Send_id now id resp (b, pool)) as [[b1 pool1] out1].
  simpl in Hlen, Huid, Hdom, Hpool1.
  destruct (IH b1 pool1 Hpool1) as (Hlen' & Huid' & Hdom').
  destruct (BiliLiveSource_Send_ids now polls (b1, pool1)) as [[b2 pool2] out2].
  simpl in *. rewrite length_app. repeat split; [lia|congruence|set_solver].
Qed.


(** One iteration gives the same source and the same messages on any two
    pools of zeroed records. *)
Lemma Send_id_pool_free now id resp b pool1 pool2 :
  liveInfoPool_ok pool1 -> liveInfoPool_ok pool2 ->
  (BiliLiveSource_Send_id now id resp (b, pool1)).1.1 =
    (BiliLiveSource_Send_id now id resp (b, pool2)).1.1 /\
  (BiliLiveSource_Send_id now id resp (b, pool1)).2 =
    (BiliLiveSource_Send_id now id resp (b, pool2)).2.
Proof.
  intros Hpool1 Hpool2.
  destruct (response_cases resp)
    as [Hfail|(body & -> & Hbody & [Hcode|[[Hcode Hroom]|[live Hrep]]])].
  - by rewrite !Send_id_failed.
  - by rewrite !Send_id_upstream_error.
  - by rewrite !Send_id_no_live_room.
  - rewrite (Send_id_reports now id body b pool1 live),
      (Send_id_reports now id body b pool2 live) by done.
    by destruct (Bool.eqb live (BiliLiveSource.living_at b id)).
Qed.

(** X5. What the status poller sends and what it records do not depend on
    the contents of its record pool: over any sequence of polls, two pools
    of zeroed records give the same messages and the same table. *)
Theorem status_poller_ignores_pool now polls b pool1 pool2 :
  liveInfoPool_ok pool1 -> liveInfoPool_ok pool2 ->
  (BiliLiveSource_Send_ids now polls (b, pool1)).1.1 =
    (BiliLiveSource_Send_ids now polls (b, pool2)).1.1 /\
  (BiliLiveSource_Send_ids now polls (b, pool1)).2 =
    (BiliLiveSource_Send_ids now polls (b, pool2)).2.
Proof.
  revert b pool1 pool2. induction polls as [|[id resp] polls IH];
    intros b pool1 pool2 Hpool1 Hpool2; [done|].
  cbn [BiliLiveSource_Send_ids].
  destruct (Send_id_pool_free now id resp b pool1 pool2 Hpool1 Hpool2) as [Hb Hout].
  pose proof (Send_id_pool_ok now id resp (b, pool1) Hpool1) as Hok1.
  pose proof (Send_id_pool_ok now id resp (b, pool2) Hpool2) as Hok2.
  destruct (BiliLiveSource_Send_id now id resp (b, pool1)) as [[b1 p1] out1].
  destruct (BiliLiveSource_Send_id now id resp (b, pool2)) as [[b2 p2] out2].
  simpl in *. subst b2 out2.
  destruct (IH b1 p1 p2 Hok1 Hok2) as [Hb' Hout'].
  destruct (BiliLiveSource_Send_ids now polls (b1, p1)) as [[b3 p3] out3].
  destruct (BiliLiveSource_Send_ids now polls (b1, p2)) as [[b4 p4] out4].
  simpl in *. by subst.
Qed.

(** X19. Upstream errors are not deduplicated: a sequence of polls that
    all come back with a non-zero upstream code, or without the live-room
    part, sends one message per poll, each titled 获取直播间状态失败, and
    leaves the source as it was. *)
Theorem upstream_errors_are_repeated now polls b pool :
  liveInfoPool_ok pool ->
  Forall (fun p => upstream_error p.2) polls ->
  let r := BiliLiveSource_Send_ids now polls (b, pool) in
  length r.2 = length polls /\
  Forall (fun msg => push.Title msg = "获取直播间状态失败") r.2 /\
  r.1.1 = b.
Proof.
  intros Hpool Hpolls. revert pool Hpool.
  induction Hpolls as [|[id resp] polls (body & Hresp & Hbody & Herr) _ IH];
    intros pool Hpool; [done|].
  simpl in Hresp. subst resp. cbn [BiliLiveSource_Send_ids].
  pose proof (liveInfoPool_recycled pool Hpool) as Hpool'.
  specialize (IH _ Hpool').
  destruct (decide (gjson.Int (gjson.Get (gjson.Parse body) "code") = 0)) as [Hcode|Hcode].
  - destruct Herr as [Hne|Hroom]; [done|].
    rewrite Send_id_no_live_room by done.
    destruct (BiliLiveSource_Send_ids now polls _) as [[b' pool'] out].
    simpl in *. destruct IH as (-> & Hout & ->). by repeat constructor.
  - rewrite Send_id_upstream_error by done.
    destruct (BiliLiveSource_Send_ids now polls _) as [[b' pool'] out].
    simpl in *. destruct IH as (-> & Hout & ->). by repeat constructor.
Qed.

End StatusPollerTicks.

(** ** Payloads that are not what the pollers expect *)

Section OddPayloads.
Context {parser : gjson.Parser}.

(** Nothing can be read out of a non-existent result. *)
Lemma Get_missing path : gjson.Get None path = None.
Proof.
  unfold gjson.Get. induction (gjson.components path "") as [|key keys IH]; [done|].
  simpl. exact IH.
Qed.

(** X6. A payload that is not empty but in which the parser finds no value
    is taken as an answer with upstream code 0: the status poller reports
    it like a profile without a live room (code 400, no author) and leaves
    its table alone, while the feed poller treats it as a successful poll
    without items, sends nothing and stores the watermark it compared
    against (or zero if that is negative). *)
Theorem payload_without_value now id body :
  body <> "" ->
  gjson.Parse body = None ->
  (forall b pool,
     liveInfoPool_ok pool ->
     exists pool',
       BiliLiveSource_Send_id now id (Body (Some body)) (b, pool) =
         ((b, pool'), [fetch_error_msg now "" "响应体中无live_room字段" 400])) /\
  (forall b pool,
     dynInfoPool_ok pool ->
     exists pool',
       BiliDynamicSource_Send_id now id (Body (Some body)) (b, pool) =
         ((BiliDynamicSource.set_lastTable id (Z.max (watermark_floor b id now) 0) b, pool'),
          [])).
Proof.
  intros Hbody Hparse. split.
  - intros b pool Hpool. eexists.
    rewrite Send_id_no_live_room; try done.
    + unfold profile_name. by rewrite Hparse, !Get_missing.
    + by rewrite Hparse, Get_missing.
    + unfold live_room. by rewrite Hparse, !Get_missing.
  - intros b pool Hpool.
    assert (Hfeed : feed_ok body).
    { split; [done|]. by rewrite Hparse, Get_missing. }
    destruct (Send_id_feed_ok now id body b pool Hpool Hfeed) as (pool' & -> & _).
    exists pool'. unfold feed_items. by rewrite Hparse, !Get_missing.
Qed.

(** X7. When the fetch fails, or the payload carries a non-zero upstream
    code, the feed poller sends nothing and changes nothing: neither the
    watermarks nor the pool. Unlike the status poller it does not report
    an upstream error. *)
Theorem feed_failure_is_silent now id resp st :
  feed_failed resp ->
  BiliDynamicSource_Send_id now id resp st = (st, []).
Proof.
  destruct st as [b pool]. unfold BiliDynamicSource_Send_id, space.
  intros [Hfail|(body & -> & Hcode)].
  - destruct resp as [err|buf]; [done|].
    by rewrite (checkResp_failed buf Hfail).
  - destruct (decide (body = "")) as [->|Hbody]; [done|].
    rewrite (checkResp_body _ Hbody). unfold checkBiliData.
    destruct (Z.eqb_spec (gjson.Int (gjson.Get (gjson.Parse body) "code")) 0); [done|].
    simpl.
    destruct (Z.eqb_spec (gjson.Int (gjson.Get (gjson.Parse body) "code")) 0); [done|].
    reflexivity.
Qed.

End OddPayloads.

(** ** Records and links *)

Section Records.
Context {parser : gjson.Parser}.

(** What every record has, whatever the type of its item. *)
Lemma classify_common item info :
  classify item = Some info ->
  DynamicInfo.times info = pub_ts item /\
  DynamicInfo.author info =
    gjson.String (gjson.Get (gjson.Get item "modules.module_author") "name") /\
  DynamicInfo.src info = link_prefix (item_type item) +:+ DynamicInfo.id info.
Proof.
  destruct (decide (item_type item = DynamicTypeForward)) as [Hfwd|Hfwd].
  - rewrite (classify_forward item Hfwd).
    destruct (classify (gjson.Get item "orig")) as [o|]; [|discriminate].
    intros [= <-]. simpl. rewrite Hfwd. done.
  - unfold classify. rewrite parseDynamic_equation_1. cbv zeta. simpl sync.Get.
    unfold link_prefix, pub_ts. unfold_types.
    repeat case_decide; try congruence; try rewrite append_images;
      intros [= <-]; done.
Qed.

(** X8. Every record the classifier returns, on a pool of reset records,
    carries the author name and the publish time of its item, and its link
    is the prefix that goes with the type of the item (video, article,
    audio, or the feed prefix for all the others, reposts included)
    followed by the id the record holds. *)
Theorem record_link_and_time item pool info :
  dynInfoPool_ok pool ->
  (parseDynamic item pool).1 = Some info ->
  DynamicInfo.times info = pub_ts item /\
  DynamicInfo.author info =
    gjson.String (gjson.Get (gjson.Get item "modules.module_author") "name") /\
  DynamicInfo.src info = link_prefix (item_type item) +:+ DynamicInfo.id info.
Proof.
  intros Hpool Hinfo.
  destruct (parseDynamic_pool item pool Hpool) as [Hcls _].
  rewrite Hcls in Hinfo. by apply classify_common.
Qed.

(** X9. An image post, on a pool of reset records, gets the record titled
    发布动态 whose body is the text of the post and whose images are the
    [src] of the attached pictures, all of them and in their order. *)
Theorem image_post_record item pool :
  dynInfoPool_ok pool ->
  item_type item = DynamicTypeDraw ->
  (parseDynamic item pool).1 =
    Some {| DynamicInfo.types := "发布动态";
            DynamicInfo.id := gjson.String (gjson.Get item "id_str");
            DynamicInfo.text :=
              gjson.String
                (gjson.Get (gjson.Get item "modules.module_dynamic") "desc.text");
            DynamicInfo.img :=
              map (fun img_i => gjson.String (gjson.Get img_i "src"))
                (gjson.Array
                   (gjson.Get (gjson.Get item "modules.module_dynamic") "major.draw.items"));
            DynamicInfo.author :=
              gjson.String (gjson.Get (gjson.Get item "modules.module_author") "name");
            DynamicInfo.src := dynamicUrlPrefix +:+ gjson.String (gjson.Get item "id_str");
            DynamicInfo.times := pub_ts item |}.
Proof.
  intros Hpool Hdraw.
  destruct (parseDynamic_pool item pool Hpool) as [-> _].
  unfold classify. rewrite parseDynamic_equation_1. cbv zeta. simpl sync.Get.
  unfold_types. repeat case_decide; try congruence.
  rewrite append_images. reflexivity.
Qed.

(** The record of a repost of a live announcement that has content. *)
Lemma classify_shared_live item :
  item_type item = DynamicTypeForward ->
  item_type (gjson.Get item "orig") = DynamicTypeLive ->
  live_content (gjson.Get item "orig") <> "" ->
  exists info,
    classify item = Some info /\
    DynamicInfo.types info = "分享直播间" /\
    DynamicInfo.times info = pub_ts item.
Proof.
  intros Hfwd Hlive Hcontent.
  destruct (classify (gjson.Get item "orig")) as [o|] eqn:Horig.
  - rewrite (classify_forward item Hfwd), Horig. cbv zeta.
    destruct (classify_types _ _ Horig) as [Htag _].
    eexists. split; [reflexivity|]. simpl. split; [|done].
    case_decide; [done|]. tauto.
  - apply (parseDynamic_None (gjson.Get item "orig") []) in Horig.
    inversion Horig; unfold_types; congruence.
Qed.

End Records.

(** ** The feed poller over several polls *)

Section FeedRuns.
Context {parser : gjson.Parser}.

Lemma newest_of_ge infos info :
  info ∈ infos -> DynamicInfo.times info <= newest_of infos.
Proof.
  unfold newest_of. induction 1 as [info infos|info info' infos Hin IH]; simpl; lia.
Qed.

Lemma newest_of_nonneg infos : 0 <= newest_of infos.
Proof. apply foldr_Zmax_nonneg. Qed.




Lemma map_as_fmap {A B} (f : A -> B) l : map f l = f <$> l.
Proof. induction l as [|x l IH]; [done|]. csimpl. by rewrite <- IH. Qed.

Lemma filter_none {A} (P : A -> Prop) `{!forall x, Decision (P x)} (l : list A) :
  (forall x, x ∈ l -> ~ P x) -> filter P l = [].
Proof.
  induction l as [|x l IH]; intros Hl; [done|].
  rewrite filter_cons. case_decide as Hx.
  - exfalso. apply (Hl x); [left|done].
  - apply IH. intros y Hy. apply Hl. by right.
Qed.


(** A poll of one account leaves the watermarks of the others alone. *)
Lemma space_frame id now resp b pool k :
  id <> k ->
  BiliDynamicSource.lastTable_at (space id now resp b pool).1.2 k =
  BiliDynamicSource.lastTable_at b k.
Proof.
  intros Hk. unfold space. destruct resp as [err|body]; simpl; [done|].
  destruct (checkResp body) as [result|err]; simpl; [|done].
  destruct (checkBiliData result) as [[data code] msg].
  destruct (negb (code =? 0)); simpl; [done|].
  match goal with |- context [fold_left ?f ?l ?a] => destruct (fold_left f l a) as [[infos newest] pool'] end.
  simpl. rewrite lastTable_at_set_lastTable. by case_decide.
Qed.

Lemma Send_ids_frame now polls st k :
  Forall (fun p => p.1 <> k) polls ->
  BiliDynamicSource.lastTable_at (BiliDynamicSource_Send_ids now polls st).1.1 k =
  BiliDynamicSource.lastTable_at st.1 k.
Proof.
  revert st. induction polls as [|[id resp] polls IH]; intros st Hpolls; [done|].
  inversion Hpolls as [|? ? Hid Hrest]; subst. simpl in Hid.
  cbn [BiliDynamicSource_Send_ids].
  pose proof (space_frame id now resp st.1 st.2 k Hid) as Hstep.
  rewrite <- Send_id_table in Hstep.
  destruct (BiliDynamicSource_Send_id now id resp st) as [st' out].
  specialize (IH st' Hrest).
  destruct (BiliDynamicSource_Send_ids now polls st') as [st'' out'].
  simpl in *. congruence.
Qed.

(** X11. Of two successful polls of an account, with any polls of other
    accounts in between and the clock of the later one at least one
    interval past the epoch, every message of the later poll is published
    strictly after every message of the earlier one; and when the later
    poll returns the same items as the earlier one it sends nothing. So no
    record is sent twice. *)
Theorem later_poll_sends_only_newer now1 now2 id body1 body2 others b pool :
  dynInfoPool_ok pool ->
  feed_ok body1 ->
  feed_ok body2 ->
  Forall (fun p => p.1 <> id) others ->
  interval <= now2 < 2 ^ 63 ->
  let r1 := BiliDynamicSource_Send_id now1 id (Body (Some body1)) (b, pool) in
  let st2 := (BiliDynamicSource_Send_ids now2 others r1.1).1 in
  let r2 := BiliDynamicSource_Send_id now2 id (Body (Some body2)) st2 in
  (forall m1 m2, m1 ∈ r1.2 -> m2 ∈ r2.2 -> push.Times m1 < push.Times m2) /\
  (feed_items body2 = feed_items body1 -> r2.2 = []).
Proof.
  intros Hpool Hfeed1 Hfeed2 Hothers Hnow2. cbv zeta.
  destruct (Send_id_feed_ok now1 id body1 b pool Hpool Hfeed1) as (pool1 & -> & Hpool1).
  cbn [fst snd].
  set (W1 := Z.max (watermark_floor b id now1) (newest_of (counted (feed_items body1)))).
  set (st1 := (BiliDynamicSource.set_lastTable id W1 b, pool1)).
  pose proof (Send_ids_frame now2 others st1 id Hothers) as Hframe.
  pose proof (Send_ids_dynInfoPool_ok now2 others st1 Hpool1) as Hpool2.
  destruct (BiliDynamicSource_Send_ids now2 others st1) as [[b2 pool2] out].
  cbn [fst snd] in *.
  subst st1. cbn [fst] in Hframe.
  rewrite lastTable_at_set_lastTable in Hframe. case_decide; [|done].
  destruct (Send_id_feed_ok now2 id body2 b2 pool2 Hpool2 Hfeed2) as (pool' & -> & _).
  cbn [snd].
  assert (Hfloor : W1 <= watermark_floor b2 id now2).
  { unfold watermark_floor. rewrite Hframe.
    pose proof (newest_of_nonneg (counted (feed_items body1))).
    destruct (Z.eqb_spec W1 0) as [->|]; [|lia].
    unfold to_int64, interval in *. rewrite Z.mod_small; lia. }
  assert (Hold : forall info, info ∈ counted (feed_items body1) ->
                              DynamicInfo.times info <= watermark_floor b2 id now2).
  { intros info Hin. apply newest_of_ge in Hin. lia. }
  split.
  - intros m1 m2. rewrite !map_as_fmap, !list_elem_of_fmap.
    intros (i1 & -> & Hin1) (i2 & -> & Hin2).
    apply list_elem_of_filter in Hin1 as [_ Hin1].
    apply list_elem_of_filter in Hin2 as [Hnew _].
    apply Hold in Hin1. simpl. lia.
  - intros ->.
    rewrite filter_none; [done|].
    intros info Hin. apply Hold in Hin. lia.
Qed.

End FeedRuns.

Section LiveAnnouncements.
Context {parser : gjson.Parser}.

Lemma counted_live_only items :
  Forall (fun item => item_type item = DynamicTypeLive \/ suppressed item) items ->
  counted items = [].
Proof.
  induction 1 as [|item items Hitem _ IH]; [done|].
  rewrite counted_cons.
  destruct (classify item) as [info|] eqn:Hcls; [|done].
  case_decide; [done|].
  destruct Hitem as [Hlive|Hsup].
  - destruct (classify_types item info Hcls) as [Htag _]. tauto.
  - apply (parseDynamic_None item []) in Hsup. unfold classify in Hcls. congruence.
Qed.

(** X12. A successful feed poll whose items are all live announcements,
    with or without content, or items the classifier suppresses, sends
    nothing, and their publish times do not move the watermark: it becomes
    the one the poll compared against (or zero if that is negative). *)
Theorem live_announcements_are_dropped now id body b pool :
  dynInfoPool_ok pool ->
  feed_ok body ->
  Forall (fun item => item_type item = DynamicTypeLive \/ suppressed item)
         (feed_items body) ->
  exists pool',
    BiliDynamicSource_Send_id now id (Body (Some body)) (b, pool) =
      ((BiliDynamicSource.set_lastTable id (Z.max (watermark_floor b id now) 0) b, pool'),
       []).
Proof.
  intros Hpool Hfeed Hlive.
  destruct (Send_id_feed_ok now id body b pool Hpool Hfeed) as (pool' & -> & _).
  exists pool'. by rewrite (counted_live_only _ Hlive).
Qed.

(** X13. A repost of a live announcement that has content is not dropped:
    when it is the one item of a successful poll and is published after
    the watermark, exactly one message is sent for it, titled 分享直播间 and
    carrying the publish time of the repost, which (or zero, if it is
    negative) becomes the watermark. *)
Theorem shared_live_room_is_sent now id body b pool item :
  dynInfoPool_ok pool ->
  feed_ok body ->
  feed_items body = [item] ->
  item_type item = DynamicTypeForward ->
  item_type (gjson.Get item "orig") = DynamicTypeLive ->
  live_content (gjson.Get item "orig") <> "" ->
  watermark_floor b id now < pub_ts item ->
  exists st' msg,
    BiliDynamicSource_Send_id now id (Body (Some body)) (b, pool) = (st', [msg]) /\
    push.Title msg = "分享直播间" /\
    push.Times msg = pub_ts item /\
    BiliDynamicSource.lastTable_at st'.1 id = Z.max (pub_ts item) 0.
Proof.
  intros Hpool Hfeed Hitems Hfwd Hlive Hcontent Hnew.
  destruct (classify_shared_live item Hfwd Hlive Hcontent) as (info & Hcls & Htag & Htime).
  destruct (Send_id_feed_ok now id body b pool Hpool Hfeed) as (pool' & -> & _).
  rewrite Hitems, counted_cons, Hcls.
  case_decide as Hl; [rewrite Htag in Hl; discriminate|].
  rewrite filter_cons. case_decide; [|lia].
  eexists _, _. split; [reflexivity|]. simpl.
  rewrite lastTable_at_set_lastTable. case_decide; [|done].
  unfold newest_of. simpl. rewrite Htime. repeat split; try done. lia.
Qed.

(** One iteration of the feed poller gives the same source and the same
    messages on any two pools of reset records. *)
Lemma feed_Send_id_pool_free now id resp b pool1 pool2 :
  dynInfoPool_ok pool1 -> dynInfoPool_ok pool2 ->
  (BiliDynamicSource_Send_id now id resp (b, pool1)).1.1 =
    (BiliDynamicSource_Send_id now id resp (b, pool2)).1.1 /\
  (BiliDynamicSource_Send_id now id resp (b, pool1)).2 =
    (BiliDynamicSource_Send_id now id resp (b, pool2)).2.
Proof.
  intros Hpool1 Hpool2.
  destruct (feed_response_cases resp) as [(body & -> & Hfeed)|[err Herr]].
  - destruct (Send_id_feed_ok now id body b pool1 Hpool1 Hfeed) as (p1 & -> & _).
    by destruct (Send_id_feed_ok now id body b pool2 Hpool2 Hfeed) as (p2 & -> & _).
  - unfold BiliDynamicSource_Send_id. by rewrite !Herr.
Qed.

(** X14. What the feed poller sends and what it records do not depend on
    the contents of its record pool: over any sequence of polls, two pools
    of reset records give the same messages and the same watermarks. *)
Theorem feed_poller_ignores_pool now polls b pool1 pool2 :
  dynInfoPool_ok pool1 -> dynInfoPool_ok pool2 ->
  (BiliDynamicSource_Send_ids now polls (b, pool1)).1.1 =
    (BiliDynamicSource_Send_ids now polls (b, pool2)).1.1 /\
  (BiliDynamicSource_Send_ids now polls (b, pool1)).2 =
    (BiliDynamicSource_Send_ids now polls (b, pool2)).2.
Proof.
  revert b pool1 pool2. induction polls as [|[id resp] polls IH];
    intros b pool1 pool2 Hpool1 Hpool2; [done|].
  cbn [BiliDynamicSource_Send_ids].
  destruct (feed_Send_id_pool_free now id resp b pool1 pool2 Hpool1 Hpool2) as [Hb Hout].
  pose proof (Send_id_dynInfoPool_ok now id resp (b, pool1) Hpool1) as Hok1.
  pose proof (Send_id_dynInfoPool_ok now id resp (b, pool2) Hpool2) as Hok2.
  destruct (BiliDynamicSource_Send_id now id resp (b, pool1)) as [[b1 p1] out1].
  destruct (BiliDynamicSource_Send_id now id resp (b, pool2)) as [[b2 p2] out2].
  simpl in *. subst b2 out2.
  destruct (IH b1 p1 p2 Hok1 Hok2) as [Hb' Hout'].
  destruct (BiliDynamicSource_Send_ids now polls (b1, p1)) as [[b3 p3] out3].
  destruct (BiliDynamicSource_Send_ids now polls (b1, p2)) as [[b4 p4] out4].
  simpl in *. by subst.
Qed.

End LiveAnnouncements.

(** ** The orchestrator: registration, cancellation, reporting *)

Section OrchestratorRuns.
Variable b : Bot.t.

Lemma AppendSink_fold s :
  forall b0,
    Bot.sinks (Bot.AppendSink s b0) = (Bot.sinks b0 ++ omap (fun x => x) s)%list /\
    Bot.sources (Bot.AppendSink s b0) = Bot.sources b0 /\
    Bot.ch (Bot.AppendSink s b0) = Bot.ch b0.
Proof.
  induction s as [|[sink|] s IH]; intros b0; simpl.
  - by rewrite app_nil_r.
  - destruct (IH (Bot.mk (Bot.sources b0) (Bot.sinks b0 ++ [sink]) (Bot.ch b0)))
      as (-> & -> & ->).
    simpl. by rewrite <- app_assoc.
  - apply IH.
Qed.

Lemma AppendSource_fold s :
  forall b0,
    Bot.sources (Bot.AppendSource s b0) = (Bot.sources b0 ++ omap (fun x => x) s)%list /\
    Bot.sinks (Bot.AppendSource s b0) = Bot.sinks b0 /\
    Bot.ch (Bot.AppendSource s b0) = Bot.ch b0.
Proof.
  induction s as [|[source|] s IH]; intros b0; simpl.
  - by rewrite app_nil_r.
  - destruct (IH (Bot.mk (Bot.sources b0 ++ [source]) (Bot.sinks b0) (Bot.ch b0)))
      as (-> & -> & ->).
    simpl. by rewrite <- app_assoc.
  - apply IH.
Qed.

Lemma run_app evs1 evs2 st :
  Bot.run b (evs1 ++ evs2) st =
  match Bot.run b evs1 st with
  | Some st1 => Bot.run b evs2 st1
  | None => None
  end.
Proof.
  revert st. induction evs1 as [|e evs1 IH]; intros st; simpl; [done|].
  destruct (Bot.step b e st); [apply IH|done].
Qed.

(** Once the loop has returned, only deliveries happen. *)
Lemma run_after_return evs :
  forall st st',
    Bot.returned st = true ->
    Bot.run b evs st = Some st' ->
    Forall (fun e => exists k, e = Bot.Sched k) evs /\ Bot.returned st' = true.
Proof.
  induction evs as [|e evs IH]; intros st st' Hret Hrun.
  - injection Hrun as <-. done.
  - simpl in Hrun. destruct (Bot.step b e st) as [st1|] eqn:Hstep; [|discriminate].
    assert (Hret1 : Bot.returned st1 = true).
    { apply (step_returned b _ _ _ Hstep). by left. }
    destruct e as [|msg|k]; simpl in Hstep; try (rewrite Hret in Hstep; discriminate).
    destruct (IH st1 st' Hret1 Hrun) as [Hevs Hret'].
    split; [|done]. constructor; [by eexists|done].
Qed.

Lemma dequeued_app evs1 evs2 :
  Bot.dequeued (evs1 ++ evs2) = (Bot.dequeued evs1 ++ Bot.dequeued evs2)%list.
Proof. unfold Bot.dequeued. apply omap_app. Qed.

Lemma dequeued_Sched evs :
  Forall (fun e => exists k, e = Bot.Sched k) evs -> Bot.dequeued evs = [].
Proof.
  induction 1 as [|e evs [k ->] _ IH]; [done|].
  by rewrite dequeued_cons, IH.
Qed.




Lemma step_count e st st' :
  Bot.step b e st = Some st' ->
  (length (Bot.received st') + length (Bot.goroutines st') =
   length (Bot.received st) + length (Bot.goroutines st)
   + length (Bot.sinks b) * length (Bot.dequeued [e]))%nat.
Proof.
  intros Hstep. destruct e as [|msg|k]; simpl in Hstep.
  - destruct (Bot.returned st); [discriminate|]. injection Hstep as <-. simpl. lia.
  - destruct (Bot.returned st); [discriminate|]. injection Hstep as <-. simpl.
    rewrite length_app, length_imap. lia.
  - destruct (Bot.goroutines st !! k) as [[[j s] msg]|] eqn:Hk; [|discriminate].
    injection Hstep as <-. simpl.
    rewrite length_app, length_delete by by eexists.
    apply lookup_lt_Some in Hk. simpl. lia.
Qed.

Lemma run_count evs :
  forall st st',
    Bot.run b evs st = Some st' ->
    (length (Bot.received st') + length (Bot.goroutines st') =
     length (Bot.received st) + length (Bot.goroutines st)
     + length (Bot.sinks b) * length (Bot.dequeued evs))%nat.
Proof.
  induction evs as [|e evs IH]; intros st st' Hrun.
  - injection Hrun as <-. simpl. lia.
  - simpl in Hrun. destruct (Bot.step b e st) as [st1|] eqn:Hstep; [|discriminate].
    rewrite (IH _ _ Hrun), (step_count _ _ _ Hstep).
    rewrite (dequeued_cons e evs), length_app, Nat.mul_add_distr_l. lia.
Qed.

End OrchestratorRuns.

(** X15. [AppendSink] adds the sinks it is given at the end of the list
    of sinks, in the order given and without the nil ones, and leaves the
    sources and the channel alone; [AppendSource] does the same for the
    sources. *)
Theorem Append_keeps_order b :
  (forall s,
     Bot.sinks (Bot.AppendSink s b) = (Bot.sinks b ++ omap (fun x => x) s)%list /\
     Bot.sources (Bot.AppendSink s b) = Bot.sources b /\
     Bot.ch (Bot.AppendSink s b) = Bot.ch b) /\
  (forall s,
     Bot.sources (Bot.AppendSource s b) = (Bot.sources b ++ omap (fun x => x) s)%list /\
     Bot.sinks (Bot.AppendSource s b) = Bot.sinks b /\
     Bot.ch (Bot.AppendSource s b) = Bot.ch b).
Proof.
  split; intros s; [apply AppendSink_fold|apply AppendSource_fold].
Qed.

(** X16. Once the dispatch loop has taken the cancellation it takes no
    further message: in any run, after the cancellation only deliveries
    that were already started happen, and the messages taken from the
    channel are those taken before. *)
Theorem no_dispatch_after_cancellation b evs1 evs2 st :
  Bot.Run b (evs1 ++ Bot.Done :: evs2) = Some st ->
  Forall (fun e => exists k, e = Bot.Sched k) evs2 /\
  Bot.dequeued (evs1 ++ Bot.Done :: evs2) = Bot.dequeued evs1 /\
  Bot.returned st = true.
Proof.
  unfold Bot.Run. rewrite run_app.
  destruct (Bot.run b evs1 Bot.start) as [st1|]; [|discriminate].
  simpl. destruct (Bot.returned st1) eqn:Hret1; [discriminate|].
  intros Hrun.
  apply run_after_return in Hrun as [Hevs Hret]; [|reflexivity].
  split; [done|]. split; [|done].
  rewrite dequeued_app, dequeued_cons, (dequeued_Sched evs2 Hevs). simpl.
  by rewrite app_nil_r.
Qed.


(** X18. A run starts exactly one delivery per registered sink for each
    message it takes from the channel, and none otherwise: the deliveries
    made and those pending together number the sinks times the messages
    taken. *)
Theorem one_delivery_per_sink_and_message b evs st :
  Bot.Run b evs = Some st ->
  (length (Bot.received st) + length (Bot.goroutines st) =
   length (Bot.sinks b) * length (Bot.dequeued evs))%nat.
Proof.
  intros Hrun. rewrite (run_count b evs Bot.start st Hrun). simpl. lia.
Qed.

(** ** Worked examples of the further properties *)

Ltac payload_reports := split; [discriminate|vm_compute; auto].

(** Accounts 42 and 43 on the first tick: one offline, one not fetched. *)
Lemma first_tick_offline_example :
  exists pool',
    BiliLiveSource_Send_tick (parser := Walkthrough.on_off) 1000
      [Body (Some "off"); Failed "timeout"] (NewBiliLiveSource [42; 43], []) =
      ((NewBiliLiveSource [42; 43], pool'), []) /\
    liveInfoPool_ok pool'.
Proof.
  apply (first_tick_offline_is_silent (parser := Walkthrough.on_off) 1000 [42; 43]
           [Body (Some "off"); Failed "timeout"]).
  constructor; [|constructor; [|constructor]].
  - right. exists "off". split; [reflexivity|payload_reports].
  - left. exact I.
Defined.

(** Three polls: a report, an upstream error, a failed fetch. *)
Lemma status_poller_bounds_example :
  let r := BiliLiveSource_Send_ids (parser := Walkthrough.on_off) 1000
             [(42, Body (Some "A")); (42, Body (Some "denied")); (43, Failed "timeout")]
             (NewBiliLiveSource [42; 43], []) in
  (length r.2 <= 3)%nat /\
  BiliLiveSource.uid r.1.1 = [42; 43] /\
  dom (BiliLiveSource.living r.1.1) ⊆ ∅ ∪ list_to_set [42; 42; 43].
Proof.
  apply (status_poller_bounds (parser := Walkthrough.on_off) 1000
           [(42, Body (Some "A")); (42, Body (Some "denied")); (43, Failed "timeout")]
           (NewBiliLiveSource [42; 43]) []).
  constructor.
Defined.


Lemma status_poller_ignores_pool_example :
  (BiliLiveSource_Send_ids (parser := Walkthrough.on_off) 1000
     [(42, Body (Some "A")); (42, Body (Some "off"))] (NewBiliLiveSource [42], [])).2 =
  (BiliLiveSource_Send_ids (parser := Walkthrough.on_off) 1000
     [(42, Body (Some "A")); (42, Body (Some "off"))]
     (NewBiliLiveSource [42], [LiveInfo.new; LiveInfo.new])).2.
Proof.
  apply (status_poller_ignores_pool (parser := Walkthrough.on_off) 1000
           [(42, Body (Some "A")); (42, Body (Some "off"))] (NewBiliLiveSource [42])
           [] [LiveInfo.new; LiveInfo.new]).
  - constructor.
  - repeat constructor.
Defined.

(** Two refused polls of account 42. *)
Lemma upstream_errors_example :
  let r := BiliLiveSource_Send_ids (parser := Walkthrough.on_off) 1000
             [(42, Body (Some "denied")); (42, Body (Some "denied"))]
             (NewBiliLiveSource [42], []) in
  length r.2 = 2%nat /\
  Forall (fun msg => push.Title msg = "获取直播间状态失败") r.2 /\
  r.1.1 = NewBiliLiveSource [42].
Proof.
  apply (upstream_errors_are_repeated (parser := Walkthrough.on_off) 1000
           [(42, Body (Some "denied")); (42, Body (Some "denied"))]
           (NewBiliLiveSource [42]) []).
  - constructor.
  - assert (Hdenied : upstream_error (parser := Walkthrough.on_off) (Body (Some "denied"))).
    { exists "denied". split; [reflexivity|]. split; [discriminate|].
      left. vm_compute. discriminate. }
    constructor; [exact Hdenied|]. constructor; [exact Hdenied|]. constructor.
Defined.

(** The payload x, in which no value is found, at both pollers. *)
Lemma payload_without_value_example :
  (exists pool',
     BiliLiveSource_Send_id (parser := Scenario.no_documents) 1000 42 (Body (Some "x"))
       (NewBiliLiveSource [42], []) =
       ((NewBiliLiveSource [42], pool'),
        [fetch_error_msg 1000 "" "响应体中无live_room字段" 400])) /\
  (exists pool',
     BiliDynamicSource_Send_id (parser := Scenario.no_documents) 1000 7 (Body (Some "x"))
       (NewBiliDynamicSource [7], []) =
       ((BiliDynamicSource.mk [7] (<[7 := 990]> ∅), pool'), [])).
Proof.
  split.
  - apply (proj1 (payload_without_value (parser := Scenario.no_documents) 1000 42 "x"
                    ltac:(discriminate) eq_refl)).
    constructor.
  - apply (proj2 (payload_without_value (parser := Scenario.no_documents) 1000 7 "x"
                    ltac:(discriminate) eq_refl) (NewBiliDynamicSource [7]) []).
    constructor.
Defined.

(** An upstream refusal at the feed poller. *)
Lemma feed_failure_example :
  BiliDynamicSource_Send_id (parser := Walkthrough.feeds) 1000 7 (Body (Some "denied"))
    (NewBiliDynamicSource [7], []) = ((NewBiliDynamicSource [7], []), []).
Proof.
  apply (feed_failure_is_silent (parser := Walkthrough.feeds) 1000 7 (Body (Some "denied"))
           (NewBiliDynamicSource [7], [])).
  right. exists "denied". split; [reflexivity|]. vm_compute. discriminate.
Defined.

(** A video submission: the link is made of the video prefix and the bvid. *)
Lemma record_link_example :
  let info := DynamicInfo.mk "投稿视频" "BV1xx" ("t" +:+ nl +:+ "d") ["v.jpg"] "up"
                "https://www.bilibili.com/video/BV1xx" 9 in
  DynamicInfo.times info = 9 /\
  DynamicInfo.author info = "up" /\
  DynamicInfo.src info = videoUrlPrefix +:+ "BV1xx".
Proof.
  apply (record_link_and_time (parser := Scenario.no_documents) (Some Walkthrough.video) []
           (DynamicInfo.mk "投稿视频" "BV1xx" ("t" +:+ nl +:+ "d") ["v.jpg"] "up"
              "https://www.bilibili.com/video/BV1xx" 9)).
  - constructor.
  - reflexivity.
Defined.

(** An image post with two pictures. *)
Lemma image_post_example :
  (parseDynamic (parser := Scenario.no_documents) (Some Walkthrough.draw) []).1 =
    Some (DynamicInfo.mk "发布动态" "77" "look" ["1.jpg"; "2.jpg"] "up"
            "https://t.bilibili.com/77" 9).
Proof.
  apply (image_post_record (parser := Scenario.no_documents) (Some Walkthrough.draw) []).
  - constructor.
  - reflexivity.
Defined.


(** Scenario C polled at 100000, a refused poll of account 8, then a poll
    at 100010 that returns the post of 99999 again and one of 100004. *)
Lemma later_poll_example :
  let r1 := BiliDynamicSource_Send_id (parser := Walkthrough.feeds) 100000 7
              (Body (Some "C")) (NewBiliDynamicSource [7; 8], []) in
  let st2 := (BiliDynamicSource_Send_ids (parser := Walkthrough.feeds) 100010
                [(8, Body (Some "denied"))] r1.1).1 in
  let r2 := BiliDynamicSource_Send_id (parser := Walkthrough.feeds) 100010 7
              (Body (Some "D")) st2 in
  Forall (fun m1 => Forall (fun m2 => push.Times m1 < push.Times m2) r2.2) r1.2.
Proof.
  destruct (later_poll_sends_only_newer (parser := Walkthrough.feeds) 100000 100010 7
              "C" "D" [(8, Body (Some "denied"))] (NewBiliDynamicSource [7; 8]) [])
    as [Hnewer _].
  - constructor.
  - split; [discriminate|reflexivity].
  - split; [discriminate|reflexivity].
  - repeat constructor. discriminate.
  - unfold interval. lia.
  - apply Forall_forall. intros m1 Hm1. apply Forall_forall. intros m2 Hm2.
    by apply Hnewer.
Defined.

(** Two live announcements, one of them without content. *)
Lemma live_announcements_example :
  exists pool',
    BiliDynamicSource_Send_id (parser := Walkthrough.feeds) 100000 7 (Body (Some "lives"))
      (NewBiliDynamicSource [7], []) =
      ((BiliDynamicSource.mk [7] (<[7 := 99990]> ∅), pool'), []).
Proof.
  apply (live_announcements_are_dropped (parser := Walkthrough.feeds) 100000 7 "lives"
           (NewBiliDynamicSource [7]) []).
  - constructor.
  - split; [discriminate|reflexivity].
  - constructor; [by left|]. constructor; [by left|]. constructor.
Defined.

(** A repost of the live announcement, published at 99998. *)
Lemma shared_live_room_example :
  exists st' msg,
    BiliDynamicSource_Send_id (parser := Walkthrough.feeds) 100000 7 (Body (Some "shared"))
      (NewBiliDynamicSource [7], []) = (st', [msg]) /\
    push.Title msg = "分享直播间" /\
    push.Times msg = 99998 /\
    BiliDynamicSource.lastTable_at st'.1 7 = 99998.
Proof.
  apply (shared_live_room_is_sent (parser := Walkthrough.feeds) 100000 7 "shared"
           (NewBiliDynamicSource [7]) [] (Some Walkthrough.shared_live)).
  - constructor.
  - split; [discriminate|reflexivity].
  - reflexivity.
  - reflexivity.
  - reflexivity.
  - discriminate.
  - reflexivity.
Defined.

Lemma feed_poller_ignores_pool_example :
  (BiliDynamicSource_Send_ids (parser := Walkthrough.feeds) 100000
     [(7, Body (Some "C")); (7, Body (Some "D"))] (NewBiliDynamicSource [7], [])).2 =
  (BiliDynamicSource_Send_ids (parser := Walkthrough.feeds) 100000
     [(7, Body (Some "C")); (7, Body (Some "D"))]
     (NewBiliDynamicSource [7], [DynamicInfo.new])).2.
Proof.
  apply (feed_poller_ignores_pool (parser := Walkthrough.feeds) 100000
           [(7, Body (Some "C")); (7, Body (Some "D"))] (NewBiliDynamicSource [7])
           [] [DynamicInfo.new]).
  - constructor.
  - repeat constructor.
Defined.

(** Scenario E cut short: a message, a delivery, the cancellation, the
    other delivery. *)
Lemma no_dispatch_after_cancellation_example :
  Forall (fun e => exists k, e = Bot.Sched k) [Bot.Sched 0] /\
  Bot.dequeued [Bot.Recv Scenario.m1; Bot.Sched 0; Bot.Done; Bot.Sched 0] = [Scenario.m1].
Proof.
  edestruct (no_dispatch_after_cancellation Scenario.two_sinks
               [Bot.Recv Scenario.m1; Bot.Sched 0] [Bot.Sched 0]) as (Hevs & Hdeq & _).
  - vm_compute. reflexivity.
  - split; [exact Hevs|exact Hdeq].
Defined.


(** Scenario E before the last two deliveries: two made, two pending. *)
Lemma one_delivery_example :
  exists st,
    Bot.Run Scenario.two_sinks
      [Bot.Recv Scenario.m1; Bot.Sched 0; Bot.Recv Scenario.m2; Bot.Sched 0] = Some st /\
    (length (Bot.received st) + length (Bot.goroutines st) = 2 * 2)%nat.
Proof.
  eexists. split; [vm_compute; reflexivity|].
  apply (one_delivery_per_sink_and_message Scenario.two_sinks
           [Bot.Recv Scenario.m1; Bot.Sched 0; Bot.Recv Scenario.m2; Bot.Sched 0]).
  vm_compute. reflexivity.
Defined.
